(** * A Typesense vector-store adapter: schema, filters, result processing,
      search and ingestion

    Shallow embedding of [local_agno/vectordb/typesense]:
    - [index.py]    : [Distance], [HNSWConfig], [create_schema];
    - [search.py]   : [build_filter_string], [TypesenseSearch];
    - [__init__.py] : [TypesenseDb].

    Python values are an untyped universe [pyval]; dictionaries keep their
    insertion order and are association lists.  Exceptions are values of
    [exn] carried by the [result] monad.  The remote engine, the embedder
    and the uuid source are an interface, [TypesenseDb.Backend]; the adapter
    runs in a state-and-exception monad over the adapter object, the engine,
    the store of the caller's documents and the log. *)

From Stdlib Require Import List String Ascii ZArith Bool Lia.
From Stdlib Require Import DecimalString.
Import ListNotations.
Local Open Scope string_scope.
Local Open Scope Z_scope.
Set Warnings "-register-all".

(** ** Python values *)

Module Py.

(** The values that travel through the adapter: JSON payloads, filter
    constraints, document fields.  A float is carried by its [repr], the
    only thing the adapter ever does with one being to format or forward
    it. *)
Inductive pyval : Type :=
| PNone
| PBool (b : bool)
| PInt (z : Z)
| PFloat (r : string)
| PStr (s : string)
| PList (l : list pyval)
| PTuple (l : list pyval)
| PDict (d : list (string * pyval)).

(** Exceptions.  [ObjectNotFound] is a subclass of [TypesenseClientError];
    every constructor is a subclass of [Exception]. *)
Inductive exn : Type :=
| ObjectNotFound (msg : string)
| TypesenseClientError (msg : string)
| AttributeError (msg : string)
| TypeError (msg : string)
| IndexError (msg : string)
| KeyError (msg : string)
| ValueError (msg : string)
| RuntimeError (msg : string).

Definition is_ObjectNotFound (e : exn) : bool :=
  match e with ObjectNotFound _ => true | _ => false end.

Definition is_TypesenseClientError (e : exn) : bool :=
  match e with
  | ObjectNotFound _ | TypesenseClientError _ => true
  | _ => false
  end.

(** [str(e)] *)
Definition exn_str (e : exn) : string :=
  match e with
  | ObjectNotFound m | TypesenseClientError m | AttributeError m
  | TypeError m | IndexError m | KeyError m | ValueError m
  | RuntimeError m => m
  end.

Inductive result (A : Type) : Type :=
| Ok (a : A)
| Raise (e : exn).
Arguments Ok {A} a.
Arguments Raise {A} e.

Definition bind {A B} (m : result A) (k : A -> result B) : result B :=
  match m with
  | Ok a => k a
  | Raise e => Raise e
  end.

(** [try: m  except Exception: h] *)
Definition try_except {A} (m : result A) (h : exn -> result A) : result A :=
  match m with
  | Ok a => Ok a
  | Raise e => h e
  end.

(** *** Dictionaries in insertion order *)

Fixpoint dict_get {V} (k : string) (d : list (string * V)) : option V :=
  match d with
  | [] => None
  | (k', v) :: rest => if String.eqb k k' then Some v else dict_get k rest
  end.

(** [d[k] = v]: an existing key keeps its position, a new key goes last. *)
Fixpoint dict_set {V} (k : string) (v : V) (d : list (string * V))
  : list (string * V) :=
  match d with
  | [] => [(k, v)]
  | (k', v') :: rest =>
      if String.eqb k k' then (k', v) :: rest
      else (k', v') :: dict_set k v rest
  end.

(** [{**d, **extra}] *)
Definition dict_update {V} (d extra : list (string * V)) : list (string * V) :=
  fold_left (fun acc kv => dict_set (fst kv) (snd kv) acc) extra d.


(** *** Formatting: [repr] and [str] *)

Definition squote : ascii := "'"%char.
Definition dquote : ascii := ascii_of_nat 34.
Definition backslash : ascii := ascii_of_nat 92.

Fixpoint str_mem (c : ascii) (s : string) : bool :=
  match s with
  | EmptyString => false
  | String c' s' => Ascii.eqb c c' || str_mem c s'
  end.

Definition hex_digit (n : nat) : ascii :=
  ascii_of_nat (if Nat.ltb n 10 then 48 + n else 87 + n)%nat.

Definition escape_char (q c : ascii) : string :=
  let n := nat_of_ascii c in
  if Ascii.eqb c q || Ascii.eqb c backslash then String backslash (String c "")
  else if Nat.eqb n 9 then String backslash "t"
  else if Nat.eqb n 10 then String backslash "n"
  else if Nat.eqb n 13 then String backslash "r"
  else if Nat.ltb n 32 || Nat.eqb n 127 then
    String backslash
      (String "x" (String (hex_digit (n / 16)) (String (hex_digit (n mod 16)) "")))
  else String c "".

Fixpoint escape (q : ascii) (s : string) : string :=
  match s with
  | EmptyString => ""
  | String c s' => escape_char q c ++ escape q s'
  end.

(** [repr] of a [str]: single quotes unless the text has a single quote and
    no double quote; bytes above 127 are the UTF-8 of printable characters
    and are kept. *)
Definition repr_str (s : string) : string :=
  let q := if str_mem squote s && negb (str_mem dquote s) then dquote else squote in
  String q (escape q s ++ String q "").

Definition str_of_Z (z : Z) : string := NilZero.string_of_int (Z.to_int z).

Fixpoint py_repr (v : pyval) : string :=
  match v with
  | PNone => "None"
  | PBool true => "True"
  | PBool false => "False"
  | PInt z => str_of_Z z
  | PFloat r => r
  | PStr s => repr_str s
  | PList l => "[" ++ String.concat ", " (map py_repr l) ++ "]"
  | PTuple l =>
      match l with
      | [x] => "(" ++ py_repr x ++ ",)"
      | _ => "(" ++ String.concat ", " (map py_repr l) ++ ")"
      end
  | PDict d =>
      "{" ++ String.concat ", "
               (map (fun '(k, x) => repr_str k ++ ": " ++ py_repr x) d) ++ "}"
  end.

(** [str(v)], which is also what an f-string field [{v}] renders. *)
Definition py_str (v : pyval) : string :=
  match v with
  | PStr s => s
  | _ => py_repr v
  end.

(** *** Truthiness, [len], iteration, [.get] *)

Definition py_truthy (v : pyval) : bool :=
  match v with
  | PNone => false
  | PBool b => b
  | PInt z => negb (Z.eqb z 0)
  | PFloat r => negb (String.eqb r "0.0" || String.eqb r "-0.0")
  | PStr s => negb (String.eqb s "")
  | PList l | PTuple l => match l with [] => false | _ => true end
  | PDict d => match d with [] => false | _ => true end
  end.

Definition is_dict (v : pyval) : bool :=
  match v with PDict _ => true | _ => false end.

Definition py_len (v : pyval) : result Z :=
  match v with
  | PStr s => Ok (Z.of_nat (String.length s))
  | PList l | PTuple l => Ok (Z.of_nat (List.length l))
  | PDict d => Ok (Z.of_nat (List.length d))
  | _ => Raise (TypeError "object has no len()")
  end.

Fixpoint chars (s : string) : list pyval :=
  match s with
  | EmptyString => []
  | String c s' => PStr (String c "") :: chars s'
  end.

(** [for x in v] *)
Definition py_iter (v : pyval) : result (list pyval) :=
  match v with
  | PList l | PTuple l => Ok l
  | PDict d => Ok (map (fun kv => PStr (fst kv)) d)
  | PStr s => Ok (chars s)
  | _ => Raise (TypeError "object is not iterable")
  end.

(** [v.get(k, default)]: only a dict has [get]. *)
Definition py_get (v : pyval) (k : string) (default : pyval) : result pyval :=
  match v with
  | PDict d => Ok (match dict_get k d with Some x => x | None => default end)
  | _ => Raise (AttributeError "object has no attribute 'get'")
  end.

(** [v.items()] *)
Definition py_items (v : pyval) : result (list (string * pyval)) :=
  match v with
  | PDict d => Ok d
  | _ => Raise (AttributeError "object has no attribute 'items'")
  end.

(** [v[0]] on a sequence *)
Definition py_index0 (v : pyval) : result pyval :=
  match v with
  | PList (x :: _) | PTuple (x :: _) => Ok x
  | PList [] | PTuple [] => Raise (IndexError "index out of range")
  | PStr (String c _) => Ok (PStr (String c ""))
  | PStr EmptyString => Raise (IndexError "string index out of range")
  | PDict d =>
      Raise (KeyError "0")
  | _ => Raise (TypeError "object is not subscriptable")
  end.

(** [v[k]] with a string key *)
Definition py_getitem (v : pyval) (k : string) : result pyval :=
  match v with
  | PDict d =>
      match dict_get k d with
      | Some x => Ok x
      | None => Raise (KeyError k)
      end
  | PList _ | PTuple _ | PStr _ =>
      Raise (TypeError "indices must be integers")
  | _ => Raise (TypeError "object is not subscriptable")
  end.

(** [v[:n]]: defined on sequences; the slice itself is only printed. *)
Definition py_sliceable (v : pyval) : result unit :=
  match v with
  | PStr _ | PList _ | PTuple _ => Ok tt
  | _ => Raise (TypeError "object is not subscriptable")
  end.

End Py.
Export Py.

Notation "x <- m ;; k" := (bind m (fun x => k))
  (at level 61, m at next level, right associativity).

(** ** Documents *)

(** [doc.embedding]: a plain Python value ([None], a list of floats) or the
    numpy array [np.array(src)]. *)
Inductive embedding_t : Type :=
| Plain (v : pyval)
| Ndarray (src : pyval).

(** [agno.document.Document]: a dataclass, every field of which but
    [content] is optional; the fields the adapter touches. *)
Module Document.
Record t : Type := mk {
  id : pyval;
  content : pyval;
  meta_data : pyval;
  embedding : embedding_t
}.
End Document.

Fixpoint same_shape (a b : list nat) : bool :=
  match a, b with
  | [], [] => true
  | x :: a', y :: b' => Nat.eqb x y && same_shape a' b'
  | _, _ => false
  end.

(** The shape numpy finds for a value: a list or tuple whose items all have
    one and the same shape has that shape under one more dimension, a value
    that is neither is a scalar, and a ragged nesting has none. *)
Fixpoint shape (v : pyval) : option (list nat) :=
  match v with
  | PList l | PTuple l =>
      match map shape l with
      | [] => Some [0%nat]
      | None :: _ => None
      | Some sh :: rest =>
          if forallb (fun o => match o with
                               | Some sh' => same_shape sh sh'
                               | None => false
                               end) rest
          then Some (List.length l :: sh)
          else None
      end
  | _ => Some []
  end.

(** [np.array(v)]: a [ValueError] for a ragged nesting. *)
Definition np_array (v : pyval) : result embedding_t :=
  match shape v with
  | Some _ => Ok (Ndarray v)
  | None => Raise (ValueError "the requested array has an inhomogeneous shape")
  end.

(** [e.tolist() if isinstance(e, np.ndarray) else e]; [tolist] gives back
    the list the array was built from, which is what it is for the arrays
    of floats built from lists of floats that embeddings are. *)
Definition tolist_if_ndarray (e : embedding_t) : pyval :=
  match e with
  | Ndarray src => src
  | Plain v => v
  end.

(** [len(e)] *)
Definition embedding_len (e : embedding_t) : result Z :=
  match e with
  | Plain v => py_len v
  | Ndarray (PList l) | Ndarray (PTuple l) => Ok (Z.of_nat (List.length l))
  | Ndarray _ => Raise (TypeError "len() of unsized object")
  end.

(** ** index.py *)

Module Index.

Inductive Distance : Type := COSINE | EUCLIDEAN | DOT_PRODUCT.

Definition value (d : Distance) : string :=
  match d with
  | COSINE => "cosine"
  | EUCLIDEAN => "euclidean"
  | DOT_PRODUCT => "dot_product"
  end.

Record HNSWConfig : Type := {
  max_elements : Z;
  m : Z;
  ef_construction : Z;
  ef : Z
}.

(** [HNSWConfig()] *)
Definition HNSWConfig_default : HNSWConfig :=
  {| max_elements := 1000000; m := 16; ef_construction := 100; ef := 64 |}.

Definition to_dict (c : HNSWConfig) : pyval :=
  PDict [("max_elements", PInt (max_elements c)); ("m", PInt (m c));
         ("ef_construction", PInt (ef_construction c)); ("ef", PInt (ef c))].

Definition create_schema (name : string) (dimension : Z) (distance : Distance)
    (hnsw_config : option HNSWConfig) (additional_fields : option (list pyval))
  : pyval :=
  let embedding_field :=
    [("name", PStr "embedding"); ("type", PStr "float[]");
     ("num_dim", PInt dimension); ("vec_dist", PStr (value distance))] in
  let embedding_field :=
    match hnsw_config with
    | Some c =>
        dict_set "hnsw_params"
          (PDict [("M", PInt (m c)); ("ef_construction", PInt (ef_construction c))])
          embedding_field
    | None => embedding_field
    end in
  let fields :=
    [PDict [("name", PStr "id"); ("type", PStr "string")];
     PDict [("name", PStr "content"); ("type", PStr "string")];
     PDict [("name", PStr "meta_data"); ("type", PStr "object")];
     PDict embedding_field] in
  let fields :=
    match additional_fields with
    | Some (f :: more) => (fields ++ (f :: more))%list
    | _ => fields
    end in
  PDict [("name", PStr name); ("enable_nested_fields", PBool true);
         ("fields", PList fields)].

End Index.

(** ** search.py *)

Module Search.

(** One iteration of the loop of [build_filter_string]. *)
Definition filter_step (filter_parts : list string) (item : string * pyval)
  : list string :=
  let '(field, value) := item in
  match value with
  | PList l | PTuple l =>
      List.app filter_parts
        [field ++ ":=[" ++ String.concat "," (map py_str l) ++ "]"]
  | _ => List.app filter_parts [field ++ ":=" ++ py_str value]
  end.

Definition build_filter_string (filters : list (string * pyval)) : string :=
  String.concat " && " (fold_left filter_step filters []).

(** [if filters: request["filter_by"] = build_filter_string(filters)], the
    statement the three searches share. *)
Definition add_filter_by (filters : option (list (string * pyval)))
    (request : list (string * pyval)) : list (string * pyval) :=
  match filters with
  | Some (item :: more) =>
      dict_set "filter_by" (PStr (build_filter_string (item :: more))) request
  | _ => request
  end.

(** The body of the [try] in the loop of [_process_results]. *)
Definition make_document (hit doc : pyval) : result Document.t :=
  i <- py_get doc "id" PNone ;;
  c <- py_get doc "content" (PStr "") ;;
  vd <- py_get hit "vector_distance" PNone ;;
  items <- py_items doc ;;
  let others :=
    filter (fun kv => negb (String.eqb (fst kv) "id" || String.eqb (fst kv) "content"))
           items in
  e <- py_get doc "embedding" PNone ;;
  embedding <- (if py_truthy e then np_array e else Ok (Plain PNone)) ;;
  Ok (Document.mk i c
        (PDict (dict_update [("vector_distance", vd)] others))
        embedding).

Fixpoint process_hits (hits : list pyval) (documents : list Document.t)
  : result (list Document.t) :=
  match hits with
  | [] => Ok documents
  | hit :: rest =>
      doc <- py_get hit "document" (PDict []) ;;
      match make_document hit doc with
      | Ok document => process_hits rest (documents ++ [document])%list
      | Raise _ => process_hits rest documents
      end
  end.

Definition _process_results (results : pyval) : result (list Document.t) :=
  hits <- py_get results "hits" (PList []) ;;
  l <- py_iter hits ;;
  process_hits l [].

(** [results and results.get('results') and results['results'][0].get('hits')],
    as a condition. *)
Definition has_hits (results : pyval) : result bool :=
  if py_truthy results then
    r <- py_get results "results" PNone ;;
    if py_truthy r then
      rs <- py_getitem results "results" ;;
      r0 <- py_index0 rs ;;
      h <- py_get r0 "hits" PNone ;;
      Ok (py_truthy h)
    else Ok false
  else Ok false.

(** [results['results'][0]['hits']] *)
Definition first_hits (results : pyval) : result pyval :=
  rs <- py_getitem results "results" ;;
  r0 <- py_index0 rs ;;
  py_getitem r0 "hits".

(** The class [TypesenseSearch].  [self.collection] and [self.client] are
    handles on the remote engine: what their calls answer is given by the
    section variables. *)
Section TypesenseSearch.

(** [self.collection.name] *)
Variable collection_name : string.
(** [self.collection.documents.search(params)] *)
Variable documents_search : pyval -> result pyval.
(** [self.client.multi_search.perform(request, common_params)] *)
Variable multi_search_perform : pyval -> pyval -> result pyval.

Definition vector_search_request (vector_str : string) (limit : Z)
    (filters : option (list (string * pyval))) : pyval :=
  PDict [("searches",
          PList [PDict (add_filter_by filters
            [("q", PStr "*");
             ("collection", PStr collection_name);
             ("vector_query",
              PStr ("embedding:([" ++ vector_str ++ "], k:" ++ str_of_Z limit ++ ")"));
             ("limit", PInt limit)])])].

Definition vector_search (query_vector : pyval) (limit : Z)
    (filters : option (list (string * pyval))) : result (list Document.t) :=
  try_except
    (_ <- py_len query_vector ;;
     vs <- py_iter query_vector ;;
     let vector_str := String.concat "," (map py_str vs) in
     let search_request := vector_search_request vector_str limit filters in
     results <- multi_search_perform search_request (PDict []) ;;
     b <- has_hits results ;;
     if b then
       hits <- first_hits results ;;
       _ <- py_len hits ;;
       _process_results (PDict [("hits", hits)])
     else Ok [])
    (fun _ => Ok []).

Definition keyword_search_params (query : string) (limit : Z)
    (filters : option (list (string * pyval))) : pyval :=
  PDict (add_filter_by filters
           [("q", PStr query); ("query_by", PStr "content"); ("limit", PInt limit)]).

Definition keyword_search (query : string) (limit : Z)
    (filters : option (list (string * pyval))) : result (list Document.t) :=
  let search_params := keyword_search_params query limit filters in
  results <- documents_search search_params ;;
  hits <- py_get results "hits" (PList []) ;;
  _ <- py_len hits ;;
  _process_results results.

Definition hybrid_search_request (query vector_str : string) (limit : Z)
    (filters : option (list (string * pyval))) : pyval :=
  PDict [("searches",
          PList [PDict (add_filter_by filters
            [("q", PStr query);
             ("collection", PStr collection_name);
             ("query_by", PStr "content");
             ("vector_query", PStr ("embedding:([" ++ vector_str ++ "])"));
             ("limit", PInt limit)])])].

Definition hybrid_search (query : string) (query_vector : pyval) (limit : Z)
    (filters : option (list (string * pyval))) : result (list Document.t) :=
  try_except
    (vs <- py_iter query_vector ;;
     let vector_str := String.concat "," (map py_str vs) in
     let search_request := hybrid_search_request query vector_str limit filters in
     results <- multi_search_perform search_request (PDict []) ;;
     b <- has_hits results ;;
     if b then
       hits <- first_hits results ;;
       _ <- py_len hits ;;
       _process_results (PDict [("hits", hits)])
     else
       r <- (if py_truthy results then py_get results "results" PNone
             else Ok results) ;;
       _ <- (if py_truthy r then
               rs <- py_getitem results "results" ;;
               r0 <- py_index0 rs ;;
               _ <- py_items r0 ;;
               Ok tt
             else Ok tt) ;;
       Ok [])
    (fun _ => Ok []).

End TypesenseSearch.

End Search.

(** ** __init__.py *)

Module TypesenseDb.

Inductive SearchType : Type := vector | keyword | hybrid.

(** What lies outside the adapter: the remote engine behind
    [typesense.Client], the embedder and [uuid.uuid4].  [engine] is the
    state of the remote side; a call that writes returns the new state with
    its answer, also when it raises. *)
Record Backend : Type := {
  engine : Type;
  (** [client.collections[name].retrieve()] *)
  collection_retrieve : engine -> string -> result pyval;
  (** [client.collections.create(schema)] *)
  collections_create : engine -> pyval -> result pyval * engine;
  (** [client.collections[name].delete()] *)
  collection_delete : engine -> string -> result pyval * engine;
  (** [client.collections[name].documents.create(doc)] *)
  documents_create : engine -> string -> pyval -> result pyval * engine;
  (** [client.collections[name].documents.search(params)] *)
  documents_search : engine -> string -> pyval -> result pyval;
  (** [client.multi_search.perform(request, common)] *)
  multi_search_perform : engine -> pyval -> pyval -> result pyval;
  (** [embedder.get_embedding(text)] *)
  get_embedding : pyval -> result embedding_t;
  (** the n-th value [str(uuid.uuid4())] yields *)
  uuid4 : nat -> string
}.

(** The search handler [TypesenseSearch(collection, client)]: it holds the
    handle of the collection it was built for. *)
Record TypesenseSearch : Type := { collection : string }.

(** The attributes of a [TypesenseDb] object. *)
Record attrs : Type := {
  name : string;
  dimension : Z;
  distance : Index.Distance;
  hnsw_config : Index.HNSWConfig;
  schema : pyval;
  _search : option TypesenseSearch;
  search_type : SearchType
}.

(** What the logger receives: [log_error] lines, and the [log_debug] line of
    [insert] that carries its [results] list. *)
Inductive log_entry : Type :=
| log_error (msg : string)
| log_debug_results (results : list pyval).

Section Adapter.

Variable B : Backend.

(** The adapter object, the remote engine, the caller's [Document]
    objects (a store indexed by reference), the uuids drawn so far and
    the log. *)
Record state : Type := {
  self : attrs;
  eng : engine B;
  heap : list Document.t;
  uuids : nat;
  log : list log_entry
}.

Definition M (A : Type) : Type := state -> result A * state.

Definition ret {A} (a : A) : M A := fun s => (Ok a, s).
Definition raise {A} (e : exn) : M A := fun s => (Raise e, s).
Definition lift {A} (r : result A) : M A := fun s => (r, s).
Definition bindM {A C} (m : M A) (k : A -> M C) : M C :=
  fun s => match m s with
           | (Ok a, s') => k a s'
           | (Raise e, s') => (Raise e, s')
           end.
Definition try_exceptM {A} (m : M A) (h : exn -> M A) : M A :=
  fun s => match m s with
           | (Ok a, s') => (Ok a, s')
           | (Raise e, s') => h e s'
           end.

Notation "x <~ m ;; k" := (bindM m (fun x => k))
  (at level 61, m at next level, right associativity).

Definition add_log (l : log_entry) : M unit :=
  fun s => (Ok tt, {| self := self s; eng := eng s; heap := heap s;
                      uuids := uuids s; log := List.app (log s) [l] |}).

Definition set_search (h : option TypesenseSearch) : M unit :=
  fun s => (Ok tt,
            {| self := {| name := name (self s); dimension := dimension (self s);
                          distance := distance (self s);
                          hnsw_config := hnsw_config (self s);
                          schema := schema (self s); _search := h;
                          search_type := search_type (self s) |};
               eng := eng s; heap := heap s; uuids := uuids s; log := log s |}).

Definition set_eng (e : engine B) (s : state) : state :=
  {| self := self s; eng := e; heap := heap s; uuids := uuids s; log := log s |}.

Definition set_heap (h : list Document.t) (s : state) : state :=
  {| self := self s; eng := eng s; heap := h; uuids := uuids s; log := log s |}.

(** A call that writes to the engine. *)
Definition call {A} (f : engine B -> result A * engine B) : M A :=
  fun s => let '(r, e) := f (eng s) in (r, set_eng e s).

(** [except TypesenseClientError as e: log_error(f"{prefix}{e}"); raise] *)
Definition logged (prefix : string) {A} (m : M A) : M A :=
  try_exceptM m
    (fun e => if is_TypesenseClientError e
              then _ <~ add_log (log_error (prefix ++ exn_str e)) ;; raise e
              else raise e).

(** [__init__]: the attributes of a fresh adapter. *)
Definition init (name : string) (dimension : Z) (distance : Index.Distance)
    (hnsw_config : option Index.HNSWConfig) (search_type : SearchType) : attrs :=
  let hnsw := match hnsw_config with
              | Some c => c
              | None => Index.HNSWConfig_default
              end in
  {| name := name; dimension := dimension; distance := distance;
     hnsw_config := hnsw;
     schema := Index.create_schema name dimension distance (Some hnsw) None;
     _search := None; search_type := search_type |}.

Definition exists_ : M bool :=
  fun s =>
    match collection_retrieve B (eng s) (name (self s)) with
    | Ok _ => (Ok true, s)
    | Raise e =>
        if is_ObjectNotFound e then (Ok false, s)
        else if is_TypesenseClientError e then
          (_ <~ add_log (log_error ("Error checking collection existence: "
                                     ++ exn_str e)) ;;
           ret false) s
        else (Raise e, s)
    end.

Definition create : M unit :=
  logged "Error creating collection: "
    (b <~ exists_ ;;
     if negb b then
       _ <~ (fun s => call (fun e => collections_create B e (schema (self s))) s) ;;
       ret tt
     else ret tt).

Definition drop : M unit :=
  logged "Error dropping collection: "
    (b <~ exists_ ;;
     if b then
       _ <~ (fun s => call (fun e => collection_delete B e (name (self s))) s) ;;
       set_search None
     else ret tt).

(** The property [search_handler]. *)
Definition search_handler : M TypesenseSearch :=
  fun s =>
    match _search (self s) with
    | Some h => (Ok h, s)
    | None =>
        logged "Error creating search handler: "
          (b <~ exists_ ;;
           _ <~ (if negb b then create else ret tt) ;;
           (fun s' =>
              let h := {| collection := name (self s') |} in
              (_ <~ set_search (Some h) ;; ret h) s')) s
    end.

(** *** The search facade *)

Definition vector_search (query : string) (limit : Z)
    (filters : option (list (string * pyval))) : M (list Document.t) :=
  try_exceptM
    (qv <~ lift (get_embedding B (PStr query)) ;;
     let query_vector := tolist_if_ndarray qv in
     h <~ search_handler ;;
     (fun s => (Search.vector_search (collection h) (multi_search_perform B (eng s))
                  query_vector limit filters, s)))
    (fun e => _ <~ add_log (log_error ("Vector search failed: " ++ exn_str e)) ;;
              ret []).

Definition keyword_search (query : string) (limit : Z)
    (filters : option (list (string * pyval))) : M (list Document.t) :=
  try_exceptM
    (h <~ search_handler ;;
     (fun s => (Search.keyword_search (documents_search B (eng s) (collection h))
                  query limit filters, s)))
    (fun e => _ <~ add_log (log_error ("Keyword search failed: " ++ exn_str e)) ;;
              ret []).

Definition hybrid_search (query : string) (limit : Z)
    (filters : option (list (string * pyval))) : M (list Document.t) :=
  try_exceptM
    (qv <~ lift (get_embedding B (PStr query)) ;;
     let query_vector := tolist_if_ndarray qv in
     h <~ search_handler ;;
     (fun s => (Search.hybrid_search (collection h) (multi_search_perform B (eng s))
                  query query_vector limit filters, s)))
    (fun e => _ <~ add_log (log_error ("Hybrid search failed: " ++ exn_str e)) ;;
              ret []).

Definition search (query : string) (limit : Z)
    (filters : option (list (string * pyval))) : M (list Document.t) :=
  try_exceptM
    (fun s =>
       match search_type (self s) with
       | vector => vector_search query limit filters s
       | keyword => keyword_search query limit filters s
       | hybrid => hybrid_search query limit filters s
       end)
    (fun e => _ <~ add_log (log_error ("Search failed: " ++ exn_str e)) ;; ret []).

(** *** Ingestion *)

(** Reading the object a reference points to. *)
Definition deref (r : nat) : M Document.t :=
  fun s => match nth_error (heap s) r with
           | Some d => (Ok d, s)
           | None => (Raise (RuntimeError "dangling reference"), s)
           end.

Fixpoint list_update {A} (l : list A) (i : nat) (x : A) : list A :=
  match l, i with
  | [], _ => []
  | _ :: t, O => x :: t
  | a :: t, S j => a :: list_update t j x
  end.

(** [doc.embedding = e] on the object [r] points to. *)
Definition assign_embedding (r : nat) (e : embedding_t) : M unit :=
  fun s => match nth_error (heap s) r with
           | Some d =>
               (Ok tt,
                set_heap (list_update (heap s) r
                            (Document.mk (Document.id d) (Document.content d)
                               (Document.meta_data d) e)) s)
           | None => (Raise (RuntimeError "dangling reference"), s)
           end.

(** [str(uuid.uuid4())] *)
Definition fresh_uuid : M pyval :=
  fun s => (Ok (PStr (uuid4 B (uuids s))),
            {| self := self s; eng := eng s; heap := heap s;
               uuids := S (uuids s); log := log s |}).

Definition is_plain_None (e : embedding_t) : bool :=
  match e with Plain PNone => true | _ => false end.

(** The body of the [try] of the first loop of [insert]: the entry
    prepared for the document [r] points to. *)
Definition prepare (r : nat) : M pyval :=
  doc <~ deref r ;;
  _ <~ lift (py_sliceable (Document.content doc)) ;;
  _ <~ (if is_plain_None (Document.embedding doc) && py_truthy (Document.content doc)
        then
          e <~ lift (get_embedding B (Document.content doc)) ;;
          _ <~ assign_embedding r e ;;
          _ <~ lift (embedding_len e) ;;
          ret tt
        else ret tt) ;;
  doc <~ deref r ;;
  let embedding := tolist_if_ndarray (Document.embedding doc) in
  _ <~ lift (py_len embedding) ;;
  let meta_data :=
    if py_truthy (Document.meta_data doc) then Document.meta_data doc else PDict [] in
  let meta_data :=
    if is_dict meta_data then meta_data
    else PDict [("value", PStr (py_str meta_data))] in
  i <~ (if py_truthy (Document.id doc) then ret (Document.id doc) else fresh_uuid) ;;
  ret (PDict [("id", i); ("content", Document.content doc);
              ("embedding", embedding); ("meta_data", meta_data)]).

(** The first loop: any failure is logged and raised again. *)
Fixpoint prepare_all (documents : list nat) (docs_to_insert : list pyval)
  : M (list pyval) :=
  match documents with
  | [] => ret docs_to_insert
  | doc :: rest =>
      doc_dict <~ try_exceptM (prepare doc)
        (fun e =>
           _ <~ add_log (log_error ("Error preparing document for insertion: "
                                     ++ exn_str e)) ;;
           raise e) ;;
      prepare_all rest (List.app docs_to_insert [doc_dict])
  end.

(** [doc_dict['id']] *)
Definition entry_id (doc_dict : pyval) : pyval :=
  match py_getitem doc_dict "id" with
  | Ok i => i
  | Raise _ => PNone
  end.

(** The second loop: one [documents.create] per entry, one record per
    entry. *)
Fixpoint store_all (docs_to_insert : list pyval) (results : list pyval)
  : M (list pyval) :=
  match docs_to_insert with
  | [] => ret results
  | doc_dict :: rest =>
      record <~ try_exceptM
        (_ <~ (fun s => call (fun e => documents_create B e (name (self s)) doc_dict) s) ;;
         ret (PDict [("success", PBool true); ("document", entry_id doc_dict)]))
        (fun e =>
           ret (PDict [("success", PBool false); ("document", entry_id doc_dict);
                       ("error", PStr (exn_str e))])) ;;
      store_all rest (List.app results [record])
  end.

(** [insert(documents)]; [documents] holds references to the caller's
    objects.  The parameter [filters] is not used by the method. *)
Definition insert (documents : list nat) : M unit :=
  match documents with
  | [] => ret tt
  | _ :: _ =>
      b <~ exists_ ;;
      _ <~ (if negb b then create else ret tt) ;;
      docs_to_insert <~ prepare_all documents [] ;;
      match docs_to_insert with
      | [] => ret tt
      | _ :: _ =>
          try_exceptM
            (results <~ store_all docs_to_insert [] ;;
             add_log (log_debug_results results))
            (fun e =>
               _ <~ add_log (log_error ("Error inserting documents: " ++ exn_str e)) ;;
               raise e)
      end
  end.

(** [upsert] *)
Definition upsert (documents : list nat) : M unit := insert documents.

(** [delete]: [drop], with a client error turned into [False]. *)
Definition delete : M bool :=
  try_exceptM (_ <~ drop ;; ret true)
    (fun e => if is_TypesenseClientError e then ret false else raise e).

End Adapter.

Arguments ret {B A} a.
Arguments self {B} s.
Arguments eng {B} s.
Arguments heap {B} s.
Arguments uuids {B} s.
Arguments log {B} s.

End TypesenseDb.

(** ** A reference engine

    An in-memory engine that answers the calls of [Backend] the way the
    remote one does: collections by name, each with its schema and its
    documents; a document is refused when its embedding is not a vector of
    the declared dimension.  It serves to run the adapter on concrete
    inputs. *)

Module Mem.

Import TypesenseDb.

Definition engine : Type := list (string * (pyval * list pyval)).

Definition not_found {A} : result A := Raise (ObjectNotFound "Not Found").

Definition collection_retrieve (e : engine) (name : string) : result pyval :=
  match dict_get name e with
  | Some (sch, _) => Ok sch
  | None => not_found
  end.

Definition schema_name (sch : pyval) : option string :=
  match py_getitem sch "name" with
  | Ok (PStr n) => Some n
  | _ => None
  end.

Definition collections_create (e : engine) (sch : pyval) : result pyval * engine :=
  match schema_name sch with
  | Some n =>
      match dict_get n e with
      | Some _ => (Raise (TypesenseClientError "collection already exists"), e)
      | None => (Ok sch, dict_set n (sch, []) e)
      end
  | None => (Raise (TypesenseClientError "bad schema"), e)
  end.

Definition collection_delete (e : engine) (name : string) : result pyval * engine :=
  match dict_get name e with
  | Some (sch, _) =>
      (Ok sch, filter (fun kv => negb (String.eqb (fst kv) name)) e)
  | None => (not_found, e)
  end.

Fixpoint find_num_dim (fields : list pyval) : option Z :=
  match fields with
  | [] => None
  | PDict f :: rest =>
      match dict_get "num_dim" f with
      | Some (PInt d) => Some d
      | _ => find_num_dim rest
      end
  | _ :: rest => find_num_dim rest
  end.

Definition schema_dim (sch : pyval) : option Z :=
  match py_getitem sch "fields" with
  | Ok (PList fields) => find_num_dim fields
  | _ => None
  end.

Definition fits (sch doc : pyval) : bool :=
  match schema_dim sch, py_getitem doc "embedding" with
  | Some d, Ok (PList v) => Z.eqb (Z.of_nat (List.length v)) d
  | _, _ => false
  end.

Definition documents_create (e : engine) (name : string) (doc : pyval)
  : result pyval * engine :=
  match dict_get name e with
  | Some (sch, docs) =>
      if fits sch doc then (Ok doc, dict_set name (sch, List.app docs [doc]) e)
      else (Raise (TypesenseClientError "embedding has the wrong dimension"), e)
  | None => (not_found, e)
  end.

Definition all_hits (docs : list pyval) : pyval :=
  PList (map (fun d => PDict [("document", d)]) docs).

Definition documents_search (e : engine) (name : string) (params : pyval)
  : result pyval :=
  match dict_get name e with
  | Some (_, docs) => Ok (PDict [("hits", all_hits docs)])
  | None => not_found
  end.

Definition request_collection (request : pyval) : result pyval :=
  ss <- py_getitem request "searches" ;;
  s0 <- py_index0 ss ;;
  py_getitem s0 "collection".

Definition multi_search_perform (e : engine) (request common : pyval)
  : result pyval :=
  match request_collection request with
  | Ok (PStr n) =>
      match dict_get n e with
      | Some (_, docs) => Ok (PDict [("results", PList [PDict [("hits", all_hits docs)]])])
      | None => Ok (PDict [("results", PList [PDict [("code", PInt 404)]])])
      end
  | _ => Raise (TypesenseClientError "bad request")
  end.

(** An embedder of dimension 3 that fails on the text [bad]. *)
Definition get_embedding (text : pyval) : result embedding_t :=
  match text with
  | PStr "bad" => Raise (RuntimeError "embedding failed")
  | _ => Ok (Plain (PList [PFloat "1.0"; PFloat "0.0"; PFloat "0.0"]))
  end.

Definition uuid4 (n : nat) : string := "uuid-" ++ str_of_Z (Z.of_nat n).

Definition backend : Backend :=
  {| TypesenseDb.engine := engine;
     TypesenseDb.collection_retrieve := collection_retrieve;
     TypesenseDb.collections_create := collections_create;
     TypesenseDb.collection_delete := collection_delete;
     TypesenseDb.documents_create := documents_create;
     TypesenseDb.documents_search := documents_search;
     TypesenseDb.multi_search_perform := multi_search_perform;
     TypesenseDb.get_embedding := get_embedding;
     TypesenseDb.uuid4 := uuid4 |}.

(** An engine that cannot be reached: every call raises. *)
Definition unreachable {A} : result A :=
  Raise (TypesenseClientError "connection refused").

Definition down : Backend :=
  {| TypesenseDb.engine := unit;
     TypesenseDb.collection_retrieve := fun _ _ => unreachable;
     TypesenseDb.collections_create := fun e _ => (unreachable, e);
     TypesenseDb.collection_delete := fun e _ => (unreachable, e);
     TypesenseDb.documents_create := fun e _ _ => (unreachable, e);
     TypesenseDb.documents_search := fun _ _ _ => unreachable;
     TypesenseDb.multi_search_perform := fun _ _ _ => unreachable;
     TypesenseDb.get_embedding := get_embedding;
     TypesenseDb.uuid4 := uuid4 |}.

(** A fresh adapter for the collection [docs] of dimension 3, before any
    call reached the engine. *)
Definition start (B : Backend) (e : TypesenseDb.engine B) (docs : list Document.t)
    (t : SearchType) : state B :=
  {| self := init "docs" 3 Index.COSINE None t;
     eng := e; heap := docs; uuids := 0; log := [] |}.

Definition doc (i c : string) (e : embedding_t) : Document.t :=
  Document.mk (PStr i) (PStr c) (PDict []) e.

(** The engine once the collection [docs] exists and holds nothing. *)
Definition provisioned : engine :=
  [("docs", (schema (init "docs" 3 Index.COSINE None vector), []))].

(** An adapter that has served a search: the search handler is cached. *)
Definition serving_on (B : Backend) (e : TypesenseDb.engine B) : state B :=
  {| self :=
       {| name := "docs"; dimension := 3; distance := Index.COSINE;
          hnsw_config := Index.HNSWConfig_default;
          schema := schema (init "docs" 3 Index.COSINE None vector);
          _search := Some {| collection := "docs" |};
          search_type := vector |};
     eng := e; heap := []; uuids := 0; log := [] |}.

Definition serving : state backend := serving_on backend provisioned.

(** The reference engine with its two search calls out of order. *)
Definition search_down : Backend :=
  {| TypesenseDb.engine := engine;
     TypesenseDb.collection_retrieve := collection_retrieve;
     TypesenseDb.collections_create := collections_create;
     TypesenseDb.collection_delete := collection_delete;
     TypesenseDb.documents_create := documents_create;
     TypesenseDb.documents_search := fun _ _ _ => unreachable;
     TypesenseDb.multi_search_perform := fun _ _ _ => unreachable;
     TypesenseDb.get_embedding := get_embedding;
     TypesenseDb.uuid4 := uuid4 |}.

End Mem.

(** ** What the specification calls things *)

Module Spec.

(** The schema's baseline fields other than the embedding. *)
Definition id_field : pyval := PDict [("name", PStr "id"); ("type", PStr "string")].
Definition content_field : pyval :=
  PDict [("name", PStr "content"); ("type", PStr "string")].
Definition metadata_field : pyval :=
  PDict [("name", PStr "meta_data"); ("type", PStr "object")].

(** The caller's extra fields, none when absent. *)
Definition extra_fields (additional_fields : option (list pyval)) : list pyval :=
  match additional_fields with
  | Some l => l
  | None => []
  end.

(** An equality predicate [field:=value]. *)
Definition equality (field : string) (value : pyval) : string :=
  field ++ ":=" ++ py_str value.

(** A membership predicate [field:=[v1,...,vn]]. *)
Definition membership (field : string) (values : list pyval) : string :=
  field ++ ":=[" ++ String.concat "," (map py_str values) ++ "]".

Definition predicate (item : string * pyval) : string :=
  match snd item with
  | PList l | PTuple l => membership (fst item) l
  | v => equality (fst item) v
  end.

(** The conjunction of predicates, in the order given. *)
Definition conjunction (predicates : list string) : string :=
  String.concat " && " predicates.

(** The filter clause of a query, if it has one. *)
Definition filter_clause (query : list (string * pyval)) : option pyval :=
  dict_get "filter_by" query.

(** The stored document a raw hit carries, when it is a mapping; a hit
    that has none counts as carrying the empty one. *)
Definition hit_document (hit : pyval) : option (list (string * pyval)) :=
  match hit with
  | PDict h =>
      match dict_get "document" h with
      | Some (PDict d) => Some d
      | Some _ => None
      | None => Some []
      end
  | _ => None
  end.

(** [d.get(k, default)] on a mapping. *)
Definition field_or (d : list (string * pyval)) (k : string) (default : pyval)
  : pyval :=
  match dict_get k d with
  | Some v => v
  | None => default
  end.

(** A stored document whose embedding can be decoded: it has none, or an
    empty one, or one that is not ragged. *)
Definition usable_embedding (d : list (string * pyval)) : bool :=
  negb (py_truthy (field_or d "embedding" PNone))
  || match shape (field_or d "embedding" PNone) with
     | Some _ => true
     | None => false
     end.

(** The ids of the documents that the hits yield whose stored document is
    a mapping with an embedding that can be decoded; [None] stands for a
    missing id. *)
Definition recovered_ids (hits : list pyval) : list pyval :=
  flat_map (fun hit => match hit_document hit with
                       | Some d =>
                           if usable_embedding d then [field_or d "id" PNone]
                           else []
                       | None => []
                       end) hits.

(** The fields of a stored document that go to the metadata. *)
Definition kept (k : string) : bool :=
  negb (String.eqb k "id" || String.eqb k "content").

(** One well-formed hit, one whose document is not a mapping, one whose
    document has no id, one whose embedding is ragged. *)
Definition sample_hits : list pyval :=
  [PDict [("document", PDict [("id", PStr "a"); ("content", PStr "apple")])];
   PDict [("document", PNone)];
   PDict [("document", PDict [("content", PStr "banana")])];
   PDict [("document",
           PDict [("id", PStr "r");
                  ("embedding", PList [PList [PFloat "1.0"; PFloat "2.0"];
                                       PList [PFloat "3.0"]])])]].

(** [insert]'s first step: the collection is there, created if need be. *)
Definition ensure_collection (B : TypesenseDb.Backend) : TypesenseDb.M B unit :=
  TypesenseDb.bindM B (TypesenseDb.exists_ B)
    (fun b => if negb b then TypesenseDb.create B else TypesenseDb.ret tt).

(** Submitting entries one after the other to the collection [name]: each
    entry with the engine's answer, and the engine at the end. *)
Fixpoint submissions (B : TypesenseDb.Backend) (name : string)
    (entries : list pyval) (e : TypesenseDb.engine B)
  : list (pyval * result pyval) * TypesenseDb.engine B :=
  match entries with
  | [] => ([], e)
  | entry :: rest =>
      let '(r, e1) := TypesenseDb.documents_create B e name entry in
      let '(l, e2) := submissions B name rest e1 in
      ((entry, r) :: l, e2)
  end.

(** The record of the ledger for one submission. *)
Definition ledger_record (o : pyval * result pyval) : pyval :=
  match snd o with
  | Ok _ =>
      PDict [("success", PBool true); ("document", TypesenseDb.entry_id (fst o))]
  | Raise x =>
      PDict [("success", PBool false); ("document", TypesenseDb.entry_id (fst o));
             ("error", PStr (exn_str x))]
  end.

(** [doc] with its embedding replaced by [e]. *)
Definition with_embedding (doc : Document.t) (e : embedding_t) : Document.t :=
  Document.mk (Document.id doc) (Document.content doc) (Document.meta_data doc) e.

(** A document [insert] computes the embedding of. *)
Definition lacks_embedding (doc : Document.t) : bool :=
  TypesenseDb.is_plain_None (Document.embedding doc)
  && py_truthy (Document.content doc).

(** What [insert] makes of a caller's document: the embedder's vector is
    written onto one that lacked its embedding, any other is left as it
    is. *)
Definition prepared (B : TypesenseDb.Backend) (doc doc' : Document.t) : Prop :=
  if lacks_embedding doc then
    exists e, TypesenseDb.get_embedding B (Document.content doc) = Ok e
              /\ TypesenseDb.is_plain_None e = false
              /\ doc' = with_embedding doc e
  else doc' = doc.

(** Two documents that differ at most in their embedding. *)
Definition same_but_embedding (doc doc' : Document.t) : Prop :=
  Document.id doc' = Document.id doc
  /\ Document.content doc' = Document.content doc
  /\ Document.meta_data doc' = Document.meta_data doc.

(** An entry fit for submission: the four keys in their order, a mapping
    as metadata and an embedding that has a length. *)
Definition sized_entry (entry : pyval) : Prop :=
  exists i c e m n,
    entry = PDict [("id", i); ("content", c); ("embedding", e);
                   ("meta_data", PDict m)]
    /\ py_len e = Ok n.

(** The documents of a batch that bring no id of their own, counted with
    their repetitions. *)
Definition id_less (heap : list Document.t) (documents : list nat) : nat :=
  List.length
    (filter (fun r => match nth_error heap r with
                      | Some doc => negb (py_truthy (Document.id doc))
                      | None => false
                      end) documents).

(** What [insert] may do to a caller's document: fill in an embedding that
    was missing, and nothing else. *)
Definition embedding_filled (doc doc' : Document.t) : Prop :=
  same_but_embedding doc doc'
  /\ (TypesenseDb.is_plain_None (Document.embedding doc) = false -> doc' = doc).

(** The same for the whole store: no object appears or disappears. *)
Definition store_preserved (h h' : list Document.t) : Prop :=
  List.length h' = List.length h
  /\ forall r doc, nth_error h r = Some doc ->
                   exists doc', nth_error h' r = Some doc' /\ embedding_filled doc doc'.

(** A value with neither list nor tuple at its top. *)
Definition is_scalar (v : pyval) : bool :=
  match v with
  | PList _ | PTuple _ => false
  | _ => true
  end.

(** The queries a multi-search request carries. *)
Definition queries (request : pyval) : list pyval :=
  match request with
  | PDict [("searches", PList l)] => l
  | _ => []
  end.

End Spec.

(** * Properties *)

(** ** Dictionaries *)

Section DictFacts.

Context {V : Type}.
Implicit Types (k : string) (v : V) (d : list (string * V)).


Lemma dict_get_set_same k v d :
  dict_get k (dict_set k v d) = Some v.
Proof.
  induction d as [|[k0 v0] d IH]; simpl.
  - now rewrite String.eqb_refl.
  - destruct (String.eqb k k0) eqn:E; simpl; rewrite E; [reflexivity | exact IH].
Qed.

End DictFacts.

(** ** Schema builder *)

Section SchemaBuilder.

Import Index Spec.

Variables (name : string) (D : Z) (distance : Distance).
Variables (hnsw : option HNSWConfig) (extra : option (list pyval)).

(** C6: the schema has the three baseline fields [id], [content] and
    [meta_data], then an [embedding] field of type [float[]] whose
    dimension is exactly [D] and whose metric is the chosen one, then the
    caller's extra fields as given; nothing else.  It holds for every
    descriptor, the valid ones (non-empty name, [D > 0]) among them. *)
Theorem create_schema_fields :
  exists embedding_field,
    py_getitem (create_schema name D distance hnsw extra) "fields"
    = Ok (PList ([id_field; content_field; metadata_field;
                  PDict embedding_field] ++ extra_fields extra)%list)
    /\ dict_get "name" embedding_field = Some (PStr "embedding")
    /\ dict_get "type" embedding_field = Some (PStr "float[]")
    /\ dict_get "num_dim" embedding_field = Some (PInt D)
    /\ dict_get "vec_dist" embedding_field = Some (PStr (value distance))
    /\ py_getitem (create_schema name D distance hnsw extra) "name"
       = Ok (PStr name).
Proof.
  unfold create_schema.
  destruct hnsw as [c|]; destruct extra as [[|f more]|]; simpl;
    eexists; (split; [reflexivity | repeat split]).
Qed.

End SchemaBuilder.

(** ** Filter compiler *)

Section FilterCompiler.

Import Search Spec.

Lemma filter_step_predicate parts item :
  filter_step parts item = (parts ++ [predicate item])%list.
Proof.
  destruct item as [field value]. unfold filter_step, predicate.
  destruct value; reflexivity.
Qed.

Lemma filter_parts_map filters : forall parts,
  fold_left filter_step filters parts = (parts ++ map predicate filters)%list.
Proof.
  induction filters as [|item rest IH]; intros parts; simpl.
  - now rewrite app_nil_r.
  - rewrite IH, filter_step_predicate, <- app_assoc. reflexivity.
Qed.

Lemma build_filter_string_conjunction filters :
  build_filter_string filters = conjunction (map predicate filters).
Proof.
  unfold build_filter_string, conjunction. now rewrite filter_parts_map.
Qed.

Lemma add_filter_by_absent request :
  add_filter_by None request = request /\ add_filter_by (Some []) request = request.
Proof. split; reflexivity. Qed.

(** C7: with an absent or empty mapping the three searches send their
    query without a filter clause; with a non-empty mapping the clause is
    the conjunction, in the mapping's order, of one predicate per key:
    equality for a scalar value, membership for a list value. *)
Theorem filters_compiled :
  (forall filters, filters = None \/ filters = Some [] ->
     forall collection_name vector_str query limit,
       (exists q,
          queries (vector_search_request collection_name vector_str limit filters)
          = [PDict q] /\ filter_clause q = None)
       /\ (exists q,
             keyword_search_params query limit filters = PDict q
             /\ filter_clause q = None)
       /\ (exists q,
             queries (hybrid_search_request collection_name query vector_str limit
                        filters) = [PDict q]
             /\ filter_clause q = None))
  /\ (forall item more collection_name vector_str query limit,
        let filters := Some (item :: more) in
        let clause := Some (PStr (conjunction (map predicate (item :: more)))) in
        (exists q,
           queries (vector_search_request collection_name vector_str limit filters)
           = [PDict q] /\ filter_clause q = clause)
        /\ (exists q,
              keyword_search_params query limit filters = PDict q
              /\ filter_clause q = clause)
        /\ (exists q,
              queries (hybrid_search_request collection_name query vector_str limit
                         filters) = [PDict q]
              /\ filter_clause q = clause))
  /\ build_filter_string [("a", PInt 1); ("b", PList [PInt 2; PInt 3])]
     = conjunction [equality "a" (PInt 1); membership "b" [PInt 2; PInt 3]]
  /\ build_filter_string [("a", PInt 1); ("b", PList [PInt 2; PInt 3])]
     = "a:=1 && b:=[2,3]".
Proof.
  split; [|split; [|split; reflexivity]].
  - intros filters [-> | ->] cn vs q l;
      (split; [|split]); eexists; (split; [reflexivity|reflexivity]).
  - intros item more cn vs q l filters clause. subst filters clause.
    unfold vector_search_request, keyword_search_params, hybrid_search_request,
      add_filter_by, filter_clause, queries.
    rewrite build_filter_string_conjunction.
    (split; [|split]); eexists; (split; [reflexivity|]);
      apply dict_get_set_same.
Qed.

Lemma filters_compiled_witness :
  (exists q,
     keyword_search_params "banana" 5 None = PDict q /\ filter_clause q = None)
  /\ (exists q,
        keyword_search_params "banana" 5
          (Some [("a", PInt 1); ("b", PList [PInt 2; PInt 3])]) = PDict q
        /\ filter_clause q = Some (PStr "a:=1 && b:=[2,3]")).
Proof.
  destruct filters_compiled as [Habsent [Hpresent _]]. split.
  - destruct (Habsent None (or_introl eq_refl) "docs" "" "banana" 5)
      as [_ [Hk _]].
    exact Hk.
  - destruct (Hpresent ("a", PInt 1) [("b", PList [PInt 2; PInt 3])]
                "docs" "" "banana" 5) as [_ [Hk _]].
    exact Hk.
Defined.

End FilterCompiler.

(** ** Result normalizer *)

Section ResultNormalizer.

Import Search Spec.




Lemma make_document_eq h d :
  usable_embedding d = true ->
  make_document (PDict h) (PDict d)
  = Ok (Document.mk (field_or d "id" PNone) (field_or d "content" (PStr ""))
          (PDict (dict_update [("vector_distance", field_or h "vector_distance" PNone)]
                    (filter (fun kv => kept (fst kv)) d)))
          (if py_truthy (field_or d "embedding" PNone)
           then Ndarray (field_or d "embedding" PNone) else Plain PNone)).
Proof.
  unfold usable_embedding, make_document, np_array. simpl.
  change (match dict_get "embedding" d with Some x => x | None => PNone end)
    with (field_or d "embedding" PNone).
  destruct (py_truthy (field_or d "embedding" PNone)); simpl; [|reflexivity].
  destruct (shape (field_or d "embedding" PNone)); [reflexivity | discriminate].
Qed.

Lemma make_document_ragged h d :
  usable_embedding d = false ->
  exists x, make_document (PDict h) (PDict d) = Raise x.
Proof.
  unfold usable_embedding, make_document, np_array. simpl.
  change (match dict_get "embedding" d with Some x => x | None => PNone end)
    with (field_or d "embedding" PNone).
  destruct (py_truthy (field_or d "embedding" PNone)); simpl; [|discriminate].
  destruct (shape (field_or d "embedding" PNone)); [discriminate|].
  intros _. eexists. reflexivity.
Qed.

Lemma make_document_not_mapping hit doc :
  is_dict doc = false -> exists e, make_document hit doc = Raise e.
Proof.
  intros Hd. destruct doc; try discriminate; eexists; reflexivity.
Qed.




Lemma process_hits_ids hits : forall documents,
  Forall (fun hit => is_dict hit = true) hits ->
  exists more,
    process_hits hits documents = Ok (documents ++ more)%list
    /\ map Document.id more = recovered_ids hits.
Proof.
  assert (Hstep : forall h d rest documents,
            Forall (fun hit => is_dict hit = true) rest ->
            (forall documents,
               exists more,
                 process_hits rest documents = Ok (documents ++ more)%list
                 /\ map Document.id more = recovered_ids rest) ->
            exists more,
              match make_document (PDict h) (PDict d) with
              | Ok document => process_hits rest (documents ++ [document])%list
              | Raise _ => process_hits rest documents
              end = Ok (documents ++ more)%list
              /\ map Document.id more
                 = ((if usable_embedding d then [field_or d "id" PNone] else [])
                    ++ recovered_ids rest)%list).
  { intros h d rest documents Hrest IH.
    destruct (usable_embedding d) eqn:Hu.
    - rewrite (make_document_eq h d Hu).
      match goal with
      | |- context [process_hits rest (documents ++ [?doc])%list] =>
          destruct (IH (documents ++ [doc])%list) as [more [Heq Hids]];
          exists (doc :: more)
      end.
      split; [rewrite Heq, <- app_assoc; reflexivity|].
      simpl. now rewrite Hids.
    - destruct (make_document_ragged h d Hu) as [x Hx]. rewrite Hx.
      destruct (IH documents) as [more [Heq Hids]].
      exists more. split; [exact Heq | exact Hids]. }
  induction hits as [|hit rest IH]; intros documents Hall.
  - exists []. split; [simpl; now rewrite app_nil_r | reflexivity].
  - inversion Hall as [|? ? Hhit Hrest]; subst.
    destruct hit as [| | | | | | |h]; try discriminate Hhit.
    unfold recovered_ids. simpl flat_map. simpl process_hits.
    fold (recovered_ids rest).
    destruct (dict_get "document" h) as [doc|] eqn:Hdoc.
    + destruct (is_dict doc) eqn:Hd.
      * destruct doc as [| | | | | | |d]; try discriminate Hd.
        apply (Hstep h d rest documents Hrest). intros docs. now apply IH.
      * destruct (make_document_not_mapping (PDict h) doc Hd) as [e He].
        rewrite He. destruct (IH documents Hrest) as [more [Heq Hids]].
        exists more. split; [exact Heq|].
        destruct doc; try discriminate Hd; exact Hids.
    + apply (Hstep h [] rest documents Hrest). intros docs. now apply IH.
Qed.

(** C3, as the code has it: given hits that are mappings, the normalizer
    does not raise; it skips the hits whose [document] entry is not a
    mapping and those whose stored embedding is ragged, and returns one
    document for each of the others, in order.  A hit whose document has
    no [id] is among those it returns, with its id unset. *)
Theorem normalize_recovers (hits : list pyval) :
  Forall (fun hit => is_dict hit = true) hits ->
  exists documents,
    _process_results (PDict [("hits", PList hits)]) = Ok documents
    /\ map Document.id documents = recovered_ids hits.
Proof.
  intros Hall. destruct (process_hits_ids hits [] Hall) as [more [Heq Hids]].
  exists more. split; [exact Heq | exact Hids].
Qed.

Lemma normalize_recovers_witness :
  exists documents,
    _process_results (PDict [("hits", PList sample_hits)]) = Ok documents
    /\ map Document.id documents = [PStr "a"; PNone].
Proof.
  apply (normalize_recovers sample_hits).
  repeat constructor.
Defined.

(** C3 as the specification states it fails: of one well-formed hit and
    one hit without [id], both come back. *)
Lemma hit_without_id_kept :
  let raw := PDict [("hits", PList
               [PDict [("document", PDict [("id", PStr "a"); ("content", PStr "apple")])];
                PDict [("document", PDict [("content", PStr "banana")])]])] in
  (exists d1 d2, _process_results raw = Ok [d1; d2] /\ Document.id d2 = PNone)
  /\ ~ (exists d, _process_results raw = Ok [d]).
Proof.
  split.
  - do 2 eexists. split; reflexivity.
  - intros [d Hd]. discriminate Hd.
Qed.

End ResultNormalizer.

(** ** Search executor *)

Section SearchExecutor.

Variable collection_name : string.
Variable documents_search : pyval -> result pyval.
Variable multi_search_perform : pyval -> pyval -> result pyval.

Lemma try_except_total {A} (m : result A) (a : A) :
  exists x, try_except m (fun _ => Ok a) = Ok x.
Proof. destruct m; simpl; eauto. Qed.

Lemma vector_search_total query_vector limit filters :
  exists documents,
    Search.vector_search collection_name multi_search_perform query_vector limit
      filters = Ok documents.
Proof. apply try_except_total. Qed.

Lemma hybrid_search_total query query_vector limit filters :
  exists documents,
    Search.hybrid_search collection_name multi_search_perform query query_vector
      limit filters = Ok documents.
Proof. apply try_except_total. Qed.

Lemma vector_search_engine_error e query_vector limit filters :
Search.vector_search collection_name (fun _ _ => Raise e) query_vector limit filters
= Ok [].
Proof.
unfold Search.vector_search.
destruct (py_len query_vector); [|reflexivity]. simpl.
destruct (py_iter query_vector); reflexivity.
Qed.

Lemma hybrid_search_engine_error e query query_vector limit filters :
Search.hybrid_search collection_name (fun _ _ => Raise e) query query_vector limit
  filters = Ok [].
Proof.
unfold Search.hybrid_search.
destruct (py_iter query_vector); reflexivity.
Qed.

(** C2 at the keyword search of the executor: when the engine's search call
  raises, [vector_search] and [hybrid_search] catch the error and answer
  the empty list, but [keyword_search] does not catch it: the error comes
  out of it as it is. *)
Theorem keyword_search_error_escapes (e : exn) query query_vector limit filters :
Search.vector_search collection_name (fun _ _ => Raise e) query_vector limit filters
= Ok []
/\ Search.hybrid_search collection_name (fun _ _ => Raise e) query query_vector
     limit filters = Ok []
/\ Search.keyword_search (fun _ => Raise e) query limit filters = Raise e.
Proof.
split; [apply vector_search_engine_error|].
split; [apply hybrid_search_engine_error|].
unfold Search.keyword_search. reflexivity.
Qed.

End SearchExecutor.

(** ** Collection lifecycle *)

Section Lifecycle.

Import TypesenseDb.

Variable B : Backend.
Implicit Type s : state B.

Ltac run :=
  unfold create, drop, logged, exists_, bindM, try_exceptM, call, ret, raise,
    add_log, set_search, set_eng; simpl.

Lemma exists_found s v :
  collection_retrieve B (eng s) (name (self s)) = Ok v ->
  exists_ B s = (Ok true, s).
Proof. intros H. unfold exists_. now rewrite H. Qed.

Lemma exists_not_found s m :
  collection_retrieve B (eng s) (name (self s)) = Raise (ObjectNotFound m) ->
  exists_ B s = (Ok false, s).
Proof. intros H. unfold exists_. now rewrite H. Qed.

Lemma exists_frame s r s' :
  exists_ B s = (r, s') ->
  heap s' = heap s /\ eng s' = eng s /\ self s' = self s.
Proof.
  unfold exists_.
  destruct (collection_retrieve B (eng s) (name (self s))) as [v|e].
  - intros H; inversion H; subst; auto.
  - destruct (is_ObjectNotFound e); [intros H; inversion H; subst; auto|].
    destruct (is_TypesenseClientError e); unfold bindM, add_log, ret; simpl;
    intros H; inversion H; subst; auto.
Qed.

Lemma create_existing s v :
  collection_retrieve B (eng s) (name (self s)) = Ok v ->
  create B s = (Ok tt, s).
Proof. intros H. run. now rewrite H. Qed.

Lemma create_frame s r s' :
  create B s = (r, s') -> heap s' = heap s /\ self s' = self s.
Proof.
  unfold create, logged, try_exceptM, bindM at 1.
  destruct (exists_ B s) as [[b|e] s1] eqn:He;
    destruct (exists_frame _ _ _ He) as [Hh [_ Hs]].
  - destruct b; simpl negb; cbv iota.
    + run. intros H; inversion H; subst; auto.
    + run. destruct (collections_create B (eng s1) (schema (self s1))) as [[v|x] e'];
        simpl; [intros H; inversion H; subst; auto|].
      destruct (is_TypesenseClientError x); simpl; intros H; inversion H; subst; auto.
  - destruct (is_TypesenseClientError e); run; intros H; inversion H; subst; auto.
Qed.

Lemma create_absent s r e' :
  fst (exists_ B s) = Ok false ->
  collections_create B (eng s) (schema (self s)) = (r, e') ->
  fst (create B s) = match r with Ok _ => Ok tt | Raise x => Raise x end
  /\ eng (snd (create B s)) = e'.
Proof.
  intros H Hc. unfold create, logged, try_exceptM, bindM.
  destruct (exists_ B s) as [[b|x] s1] eqn:He; simpl in H; [|discriminate].
  inversion H; subst b.
  destruct (exists_frame _ _ _ He) as [_ [Heng Hself]].
  unfold call. cbn [negb]. cbv beta iota. rewrite Heng, Hself, Hc.
  destruct r as [v|x]; simpl; [split; reflexivity|].
  destruct (is_TypesenseClientError x); split; reflexivity.
Qed.

Lemma create_twice s s1 :
  (forall v e', collections_create B (eng s) (schema (self s)) = (Ok v, e') ->
                exists w, collection_retrieve B e' (name (self s)) = Ok w) ->
  create B s = (Ok tt, s1) -> create B s1 = (Ok tt, s1).
Proof.
  intros Hlaw. unfold create at 1. run.
  destruct (collection_retrieve B (eng s) (name (self s))) as [v|e] eqn:Hr.
  - simpl. intros Heq. inversion Heq; subst. now apply (create_existing _ v).
  - destruct (is_ObjectNotFound e); [|destruct (is_TypesenseClientError e)]; simpl.
    + destruct (collections_create B (eng s) (schema (self s))) as [[v|x] e'] eqn:Hc;
        simpl.
      * intros Heq. inversion Heq; subst.
        destruct (Hlaw v e' eq_refl) as [w Hw].
        now apply (create_existing _ w).
      * destruct (is_TypesenseClientError x); discriminate.
    + destruct (collections_create B (eng s) (schema (self s))) as [[v|x] e'] eqn:Hc;
        simpl.
      * intros Heq. inversion Heq; subst.
        destruct (Hlaw v e' eq_refl) as [w Hw].
        now apply (create_existing _ w).
      * destruct (is_TypesenseClientError x); discriminate.
    + destruct (is_TypesenseClientError e); discriminate.
Qed.

(** C5: when the collection exists [create] does nothing and succeeds;
    when the probe finds none, [create] submits the schema the adapter
    built with [create_schema], and a failure of that call comes out of
    [create]; and where a successful creation makes the collection
    retrievable, a second [create] succeeds and changes nothing. *)
Theorem create_idempotent s :
  (forall v, collection_retrieve B (eng s) (name (self s)) = Ok v ->
             create B s = (Ok tt, s))
  /\ (forall r e',
        fst (exists_ B s) = Ok false ->
        collections_create B (eng s) (schema (self s)) = (r, e') ->
        fst (create B s) = match r with Ok _ => Ok tt | Raise x => Raise x end
        /\ eng (snd (create B s)) = e')
  /\ (forall n d dist h t,
        schema (init n d dist h t)
        = Index.create_schema n d dist (Some (hnsw_config (init n d dist h t))) None)
  /\ ((forall v e', collections_create B (eng s) (schema (self s)) = (Ok v, e') ->
                    exists w, collection_retrieve B e' (name (self s)) = Ok w) ->
      forall s1, create B s = (Ok tt, s1) -> create B s1 = (Ok tt, s1)).
Proof.
  split; [|split; [|split]].
  - intros v. apply create_existing.
  - intros r e'. apply create_absent.
  - reflexivity.
  - intros Hlaw s1. now apply create_twice.
Qed.

Lemma search_handler_rebuilds s h s' :
  _search (self s) = None ->
  search_handler B s = (Ok h, s') ->
  h = {| collection := name (self s) |} /\ _search (self s') = Some h.
Proof.
  intros Hnone. unfold search_handler. rewrite Hnone.
  unfold logged, try_exceptM, bindM.
  destruct (exists_ B s) as [[b|e] s1] eqn:He.
  - destruct (exists_frame _ _ _ He) as [_ [_ Hs1]].
    destruct ((if negb b then create B else ret tt) s1) as [[[]|e] s2] eqn:Hc.
    + assert (Hs2 : self s2 = self s1).
      { destruct b; simpl in Hc.
        - unfold ret in Hc. now inversion Hc.
        - now destruct (create_frame _ _ _ Hc). }
      unfold set_search, ret. simpl. intros H; inversion H; subst.
      simpl. rewrite Hs2, Hs1. split; reflexivity.
    + destruct (is_TypesenseClientError e); run; discriminate.
  - destruct (is_TypesenseClientError e); run; discriminate.
Qed.

(** C8, as the code has it: when the collection exists and its deletion
    succeeds, [drop] leaves the engine as the deletion left it and the
    adapter without a cached search handler, so that the next use of
    [search_handler] builds one; when the collection does not exist, [drop]
    succeeds and changes nothing: a search handler cached at that time
    stays cached. *)
Theorem drop_invalidates s :
  (forall v w e',
     collection_retrieve B (eng s) (name (self s)) = Ok v ->
     collection_delete B (eng s) (name (self s)) = (Ok w, e') ->
     exists s', drop B s = (Ok tt, s')
                /\ eng s' = e' /\ _search (self s') = None
                /\ name (self s') = name (self s))
  /\ (forall s1 h s2,
        _search (self s1) = None ->
        search_handler B s1 = (Ok h, s2) ->
        h = {| collection := name (self s1) |} /\ _search (self s2) = Some h)
  /\ (forall m,
        collection_retrieve B (eng s) (name (self s)) = Raise (ObjectNotFound m) ->
        drop B s = (Ok tt, s)).
Proof.
  split; [|split].
  - intros v w e' Hr Hd. run. rewrite Hr. simpl. rewrite Hd. simpl.
    eexists. split; [reflexivity|]. repeat split.
  - intros s1 h s2. apply search_handler_rebuilds.
  - intros m Hr. run. now rewrite Hr.
Qed.

End Lifecycle.

Section LifecycleWitnesses.

Import TypesenseDb.

Lemma create_idempotent_witness :
  let s := Mem.start Mem.backend [] [] vector in
  exists s1,
    create Mem.backend s = (Ok tt, s1)
    /\ eng s1 = Mem.provisioned
    /\ create Mem.backend s1 = (Ok tt, s1).
Proof.
  intros s.
  destruct (create_idempotent Mem.backend s) as [_ [Habsent [_ Htwice]]].
  exists (set_eng Mem.backend Mem.provisioned s).
  assert (Hc : create Mem.backend s
               = (Ok tt, set_eng Mem.backend Mem.provisioned s)) by reflexivity.
  split; [exact Hc|]. split; [reflexivity|].
  apply Htwice; [|exact Hc].
  intros v e' Heq. inversion Heq; subst. eexists. reflexivity.
Defined.

(** C8 as the specification states it fails: with a search handler cached
    and no collection on the engine, [drop] returns and the handler is
    still cached; the next use of [search_handler] returns it as it is,
    without a probe, and the collection is not created again. *)
Lemma drop_absent_keeps_handle :
  let s := Mem.serving_on Mem.backend [] in
  let h := {| collection := "docs" |} in
  (exists s', drop Mem.backend s = (Ok tt, s')
              /\ _search (self s') = Some h
              /\ search_handler Mem.backend s' = (Ok h, s')
              /\ eng s' = [])
  /\ ~ (forall s', drop Mem.backend s = (Ok tt, s') -> _search (self s') = None).
Proof.
  intros s h. split.
  - exists s. repeat split.
  - intros H. specialize (H s eq_refl). discriminate H.
Qed.

Lemma drop_invalidates_witness :
  (exists s', drop Mem.backend Mem.serving = (Ok tt, s')
              /\ eng s' = [] /\ _search (self s') = None
              /\ name (self s') = "docs")
  /\ (let s1 := snd (drop Mem.backend Mem.serving) in
      let h := {| collection := "docs" |} in
      exists s2, search_handler Mem.backend s1 = (Ok h, s2)
                 /\ _search (self s2) = Some h)
  /\ drop Mem.backend (Mem.start Mem.backend [] [] vector)
     = (Ok tt, Mem.start Mem.backend [] [] vector).
Proof.
  destruct (drop_invalidates Mem.backend Mem.serving) as [Hdrop [Hnext _]].
  split; [|split].
  - eapply Hdrop; reflexivity.
  - intros s1 h.
    exists (snd (search_handler Mem.backend s1)).
    assert (Hh : search_handler Mem.backend s1
                 = (Ok h, snd (search_handler Mem.backend s1))) by reflexivity.
    split; [exact Hh|].
    exact (proj2 (Hnext s1 h _ eq_refl Hh)).
  - destruct (drop_invalidates Mem.backend (Mem.start Mem.backend [] [] vector))
      as [_ [_ Habsent]].
    eapply Habsent. reflexivity.
Defined.

End LifecycleWitnesses.

(** ** Ingestion *)

Section Ingestion.

Import TypesenseDb Spec.

Variable B : Backend.
Implicit Type s : state B.

Ltac run :=
  unfold logged, exists_, bindM, try_exceptM, call, ret, raise, lift,
    add_log, set_search, set_eng, set_heap, fresh_uuid; simpl.

Lemma nth_error_update_same {A} (l : list A) i x y :
  nth_error l i = Some y -> nth_error (list_update l i x) i = Some x.
Proof.
  revert i. induction l as [|a l IH]; intros [|i] H; simpl in *;
    try discriminate; [reflexivity | now apply IH].
Qed.

Lemma nth_error_update_other {A} (l : list A) i j x :
  i <> j -> nth_error (list_update l i x) j = nth_error l j.
Proof.
  revert i j. induction l as [|a l IH]; intros [|i] [|j] H; simpl;
    try reflexivity; [congruence | apply IH; congruence].
Qed.

Lemma embedding_len_not_None e n :
  embedding_len e = Ok n -> is_plain_None e = false.
Proof. destruct e as [[]|]; simpl; intros H; try reflexivity; discriminate. Qed.

Lemma ensure_frame s r s' :
  ensure_collection B s = (r, s') -> heap s' = heap s /\ self s' = self s.
Proof.
  unfold ensure_collection, bindM.
  destruct (exists_ B s) as [[b|e] s1] eqn:He;
    destruct (exists_frame _ _ _ _ He) as [Hh [_ Hs]].
  - destruct b; simpl negb; cbv iota.
    + unfold ret. intros H; inversion H; subst; auto.
    + intros H. destruct (create_frame _ _ _ _ H) as [Hh' Hs']. split; congruence.
  - intros H; inversion H; subst; auto.
Qed.

Ltac done_frame :=
  let H := fresh in
  intros H; inversion H; subst; simpl;
  repeat split; auto; intros; try discriminate.

(** What one preparation does: it leaves the engine, the adapter and the
    log alone and every other object of the store; when it succeeds, the
    object it was given got its embedding from the embedder if it lacked
    one and had content, and is as before otherwise; the entry carries
    the embedding the object then has. *)
Lemma prepare_spec r s res s' :
  prepare B r s = (res, s') ->
  eng s' = eng s /\ self s' = self s /\ log s' = log s
  /\ (forall r', r <> r' -> nth_error (heap s') r' = nth_error (heap s) r')
  /\ (forall entry doc, res = Ok entry -> nth_error (heap s) r = Some doc ->
        if lacks_embedding doc then
          exists e, get_embedding B (Document.content doc) = Ok e
                    /\ is_plain_None e = false
                    /\ nth_error (heap s') r = Some (with_embedding doc e)
                    /\ py_getitem entry "embedding" = Ok (tolist_if_ndarray e)
        else nth_error (heap s') r = Some doc
             /\ py_getitem entry "embedding"
                = Ok (tolist_if_ndarray (Document.embedding doc))).
Proof.
  unfold prepare, bindM, deref, lift, assign_embedding, lacks_embedding.
  destruct (nth_error (heap s) r) as [doc|] eqn:Hn; [|done_frame].
  destruct (py_sliceable (Document.content doc)); [|done_frame].
  destruct (is_plain_None (Document.embedding doc)
            && py_truthy (Document.content doc)) eqn:Hc.
  - destruct (get_embedding B (Document.content doc)) as [e|x] eqn:Hg;
      [|done_frame].
    rewrite Hn. simpl.
    destruct (embedding_len e) as [n|x] eqn:Hl.
    + simpl. rewrite (nth_error_update_same _ _ _ _ Hn). simpl.
      destruct (py_len (tolist_if_ndarray e)); simpl.
      * destruct (py_truthy (Document.id doc)); run; done_frame;
          try (now apply nth_error_update_other).
        all: match goal with
             | Hd : Some _ = Some _, He : Ok _ = Ok _ |- _ =>
                 inversion Hd; inversion He; subst
             end; rewrite Hc; exists e;
          (split; [exact Hg|]);
          (split; [exact (embedding_len_not_None _ _ Hl)|]);
          (split; [simpl; exact (nth_error_update_same _ _ _ _ Hn) | reflexivity]).
      * done_frame. now apply nth_error_update_other.
    + simpl. done_frame. now apply nth_error_update_other.
  - unfold ret. rewrite Hn.
    destruct (py_len (tolist_if_ndarray (Document.embedding doc))); simpl;
      [|done_frame].
    destruct (py_truthy (Document.id doc)); run; done_frame.
    all: match goal with
         | Hd : Some _ = Some _, He : Ok _ = Ok _ |- _ =>
             inversion Hd; inversion He; subst
         end; rewrite Hc; split; [simpl; exact Hn | reflexivity].
Qed.

Lemma prepared_once doc doc1 doc2 :
  prepared B doc doc1 -> prepared B doc1 doc2 -> prepared B doc doc2.
Proof.
  unfold prepared. destruct (lacks_embedding doc) eqn:Hl.
  - intros [e [Hg [Hn ->]]].
    assert (Hl1 : lacks_embedding (with_embedding doc e) = false).
    { unfold lacks_embedding. simpl. now rewrite Hn. }
    rewrite Hl1. intros ->. now exists e.
  - intros ->. now rewrite Hl.
Qed.

Lemma prepare_all_frame documents : forall acc s res s',
  prepare_all B documents acc s = (res, s') ->
  eng s' = eng s /\ self s' = self s.
Proof.
  induction documents as [|r rest IH]; intros acc s res s'; simpl.
  - unfold ret. intros H; inversion H; subst; auto.
  - unfold bindM at 1. unfold try_exceptM.
    destruct (prepare B r s) as [[entry|x] s1] eqn:Hp;
      destruct (prepare_spec _ _ _ _ Hp) as [He [Hs _]].
    + intros H. destruct (IH _ _ _ _ H). split; congruence.
    + run. intros H; inversion H; subst; auto.
Qed.

(** The first loop, when it completes: one entry per document, and each
    object of the store is what [prepared] says if the batch refers to it
    and untouched if not. *)
Lemma prepare_all_spec documents : forall acc s entries s',
  prepare_all B documents acc s = (Ok entries, s') ->
  (exists more, entries = (acc ++ more)%list
                /\ List.length more = List.length documents)
  /\ (forall r doc, nth_error (heap s) r = Some doc ->
        exists doc', nth_error (heap s') r = Some doc'
                     /\ (In r documents -> prepared B doc doc')
                     /\ (~ In r documents -> doc' = doc)).
Proof.
  induction documents as [|r0 rest IH]; intros acc s entries s'; simpl.
  - unfold ret. intros H; inversion H; subst. split.
    + exists []. split; [now rewrite app_nil_r | reflexivity].
    + intros r doc Hn. exists doc. tauto.
  - unfold bindM at 1. unfold try_exceptM.
    destruct (prepare B r0 s) as [[entry|x] s1] eqn:Hp;
      [|run; discriminate].
    destruct (prepare_spec _ _ _ _ Hp) as [_ [_ [_ [Hother Hself]]]].
    intros H. destruct (IH _ _ _ _ H) as [[more [-> Hlen]] Hheap]. split.
    + exists (entry :: more). split; [now rewrite <- app_assoc|].
      simpl. now rewrite Hlen.
    + intros r doc Hn. destruct (Nat.eq_dec r0 r) as [->|Hne].
      * specialize (Hself entry doc eq_refl Hn).
        assert (H1 : exists doc1, nth_error (heap s1) r = Some doc1
                                  /\ prepared B doc doc1).
        { unfold prepared. destruct (lacks_embedding doc).
          - destruct Hself as [e [Hg [Hnn [Hh _]]]].
            exists (with_embedding doc e). split; [exact Hh|]. now exists e.
          - exists doc. tauto. }
        destruct H1 as [doc1 [Hn1 Hp1]].
        destruct (Hheap r doc1 Hn1) as [doc' [Hn' [Hin Hout]]].
        exists doc'. split; [exact Hn'|]. split; [|tauto].
        intros _. destruct (in_dec Nat.eq_dec r rest) as [Hi|Hi].
        -- exact (prepared_once _ _ _ Hp1 (Hin Hi)).
        -- now rewrite (Hout Hi).
      * rewrite <- (Hother r Hne) in Hn.
        destruct (Hheap r doc Hn) as [doc' [Hn' [Hin Hout]]].
        exists doc'. split; [exact Hn'|]. split.
        -- intros [Heq|Hi]; [contradiction | now apply Hin].
        -- intros Hni. apply Hout. tauto.
Qed.

Lemma submissions_entries nm entries : forall e,
  map fst (fst (submissions B nm entries e)) = entries.
Proof.
  induction entries as [|entry rest IH]; intros e; simpl; [reflexivity|].
  destruct (documents_create B e nm entry) as [r e1].
  specialize (IH e1). destruct (submissions B nm rest e1) as [l e2].
  simpl in *. now rewrite IH.
Qed.

(** The second loop never raises: it submits every entry, whatever the
    answers to the earlier ones, and makes one record of each answer. *)
Lemma store_all_spec entries : forall results s,
  store_all B entries results s
  = (Ok (results
         ++ map ledger_record (fst (submissions B (name (self s)) entries (eng s))))%list,
     set_eng B (snd (submissions B (name (self s)) entries (eng s))) s).
Proof.
  induction entries as [|entry rest IH]; intros results s; simpl.
  - unfold ret, set_eng. rewrite app_nil_r. now destruct s.
  - unfold bindM at 1. unfold try_exceptM, bindM, call, ret.
    destruct (documents_create B (eng s) (name (self s)) entry) as [[v|x] e1] eqn:Hc;
      rewrite IH; simpl;
      destruct (submissions B (name (self s)) rest e1) as [l e2];
      simpl; rewrite <- app_assoc; reflexivity.
Qed.

Lemma insert_unfold documents s :
  documents <> [] ->
  insert B documents s
  = match ensure_collection B s with
    | (Ok _, s0) =>
        match prepare_all B documents [] s0 with
        | (Ok [], s1) => (Ok tt, s1)
        | (Ok (entry :: entries), s1) =>
            try_exceptM B
              (bindM B (store_all B (entry :: entries) [])
                 (fun results => add_log B (log_debug_results results)))
              (fun e =>
                 bindM B (add_log B (log_error ("Error inserting documents: "
                                                 ++ exn_str e)))
                   (fun _ => raise B e)) s1
        | (Raise e, s1) => (Raise e, s1)
        end
    | (Raise e, s0) => (Raise e, s0)
    end.
Proof.
  destruct documents as [|r rest]; [congruence|]. intros _.
  unfold insert, ensure_collection, bindM.
  destruct (exists_ B s) as [[b|e] s1]; [|reflexivity].
  destruct ((if negb b then create B else ret tt) s1) as [[[]|e] s2]; [|reflexivity].
  destruct (prepare_all B (r :: rest) [] s2) as [[[|entry entries]|e] s3];
    reflexivity.
Qed.

(** The log of the first loop: nothing while documents are prepared, and
    the one line of the failure that ends it. *)
Lemma prepare_all_log documents : forall acc s res s',
  prepare_all B documents acc s = (res, s') ->
  log s' = match res with
           | Ok _ => log s
           | Raise e =>
               (log s ++ [log_error ("Error preparing document for insertion: "
                                      ++ exn_str e)])%list
           end.
Proof.
  induction documents as [|r rest IH]; intros acc s res s'; simpl.
  - unfold ret. intros H; inversion H; subst. reflexivity.
  - unfold bindM at 1. unfold try_exceptM.
    destruct (prepare B r s) as [[entry|x] s1] eqn:Hp;
      destruct (prepare_spec _ _ _ _ Hp) as [_ [_ [Hlog _]]].
    + intros H. rewrite (IH _ _ _ _ H), Hlog. reflexivity.
    + run. intros H; inversion H; subst. simpl. now rewrite Hlog.
Qed.

(** C1, as the code has it: once every document of the batch has been
    prepared, each of them is submitted to the engine whatever the
    answers to the others, the call succeeds, and the log receives one
    record per document with the outcome of its submission.  A failure
    while a document is prepared, such as a failure of the embedder, is
    logged and raised again: the call ends there, nothing is submitted and
    the log receives that one line of error, no record of any document. *)
Theorem insert_isolates_submissions s documents s0 :
  documents <> [] ->
  ensure_collection B s = (Ok tt, s0) ->
  (forall entries s1,
     prepare_all B documents [] s0 = (Ok entries, s1) ->
     exists s2 outcomes,
       insert B documents s = (Ok tt, s2)
       /\ submissions B (name (self s)) entries (eng s0) = (outcomes, eng s2)
       /\ map fst outcomes = entries
       /\ List.length outcomes = List.length documents
       /\ log s2 = (log s1 ++ [log_debug_results (map ledger_record outcomes)])%list
       /\ heap s2 = heap s1)
  /\ (forall e s1,
        prepare_all B documents [] s0 = (Raise e, s1) ->
        insert B documents s = (Raise e, s1)
        /\ eng s1 = eng s0
        /\ log s1
           = (log s0 ++ [log_error ("Error preparing document for insertion: "
                                     ++ exn_str e)])%list).
Proof.
  intros Hne Hens. destruct (ensure_frame _ _ _ Hens) as [_ Hself]. split.
  - intros entries s1 Hprep.
    destruct (prepare_all_frame _ _ _ _ _ Hprep) as [Heng Hself1].
    destruct (prepare_all_spec _ _ _ _ _ Hprep) as [[more [Hm Hlen]] _].
    simpl in Hm. subst more.
    rewrite (insert_unfold _ _ Hne), Hens, Hprep.
    destruct entries as [|entry entries].
    { destruct documents; [congruence | discriminate Hlen]. }
    unfold try_exceptM. unfold bindM at 1. rewrite store_all_spec.
    rewrite Hself1, Hself, Heng.
    pose proof (submissions_entries (name (self s)) (entry :: entries) (eng s0))
      as Hfst.
    destruct (submissions B (name (self s)) (entry :: entries) (eng s0))
      as [outcomes e2] eqn:Hsub.
    simpl in Hfst. run. do 2 eexists.
    split; [reflexivity|]. simpl.
    split; [reflexivity|]. split; [exact Hfst|].
    split; [|split; reflexivity].
    rewrite <- Hlen, <- Hfst. now rewrite length_map.
  - intros e s1 Hprep.
    destruct (prepare_all_frame _ _ _ _ _ Hprep) as [Heng _].
    rewrite (insert_unfold _ _ Hne), Hens, Hprep.
    split; [reflexivity|]. split; [exact Heng|].
    exact (prepare_all_log _ _ _ _ _ Hprep).
Qed.

(** C10: when [insert] returns, every object of the batch that had no
    embedding and had content carries the vector the embedder gave for
    its content, its other fields being as they were. *)
Theorem insert_writes_embedding_back s documents s' r doc :
  insert B documents s = (Ok tt, s') ->
  In r documents ->
  nth_error (heap s) r = Some doc ->
  lacks_embedding doc = true ->
  exists e, get_embedding B (Document.content doc) = Ok e
            /\ nth_error (heap s') r = Some (with_embedding doc e).
Proof.
  intros Hins Hin Hn Hl.
  assert (Hne : documents <> []) by (intros ->; contradiction).
  rewrite (insert_unfold _ _ Hne) in Hins.
  destruct (ensure_collection B s) as [[[]|x] s0] eqn:Hens; [|discriminate].
  destruct (ensure_frame _ _ _ Hens) as [Hh0 _].
  destruct (prepare_all B documents [] s0) as [[entries|x] s1] eqn:Hprep;
    [|discriminate].
  destruct (prepare_all_spec _ _ _ _ _ Hprep) as [_ Hheap].
  rewrite <- Hh0 in Hn.
  destruct (Hheap r doc Hn) as [doc' [Hn' [Hp _]]].
  specialize (Hp Hin). unfold prepared in Hp. rewrite Hl in Hp.
  destruct Hp as [e [Hg [_ ->]]]. exists e. split; [exact Hg|].
  assert (Hh : heap s' = heap s1).
  { destruct entries as [|entry entries]; [now inversion Hins|].
    revert Hins. unfold try_exceptM. unfold bindM at 1.
    rewrite store_all_spec. run. intros H; inversion H; reflexivity. }
  now rewrite Hh.
Qed.

(** A document with neither embedding nor content is not prepared: the
    embedder is not called and the length of the absent embedding is
    asked for. *)
Lemma prepare_without_content r s doc :
  nth_error (heap s) r = Some doc ->
  Document.embedding doc = Plain PNone ->
  py_truthy (Document.content doc) = false ->
  py_sliceable (Document.content doc) = Ok tt ->
  prepare B r s = (Raise (TypeError "object has no len()"), s).
Proof.
  intros Hn He Hc Hs. unfold prepare, bindM, deref, lift.
  rewrite Hn, Hs, He, Hc. simpl. unfold ret. rewrite Hn, He. reflexivity.
Qed.

End Ingestion.

Section IngestionWitnesses.

Import TypesenseDb Spec.

(** Three documents; the second brings an embedding of the wrong
    dimension, which the engine refuses. *)
Lemma insert_isolates_submissions_witness :
  (let s := Mem.start Mem.backend Mem.provisioned
              [Mem.doc "a" "apple" (Plain PNone);
               Mem.doc "b" "banana" (Plain (PList [PFloat "1.0"]));
               Mem.doc "c" "cherry" (Plain PNone)] vector in
   exists s2 outcomes,
     insert Mem.backend [0; 1; 2]%nat s = (Ok tt, s2)
     /\ map ledger_record outcomes
        = [PDict [("success", PBool true); ("document", PStr "a")];
           PDict [("success", PBool false); ("document", PStr "b");
                  ("error", PStr "embedding has the wrong dimension")];
           PDict [("success", PBool true); ("document", PStr "c")]]
     /\ log s2 = [log_debug_results (map ledger_record outcomes)])
  /\ (let s := Mem.start Mem.backend Mem.provisioned
                 [Mem.doc "a" "apple" (Plain PNone);
                  Mem.doc "b" "bad" (Plain PNone);
                  Mem.doc "c" "cherry" (Plain PNone)] vector in
      exists s1,
        insert Mem.backend [0; 1; 2]%nat s
        = (Raise (RuntimeError "embedding failed"), s1)
        /\ eng s1 = Mem.provisioned
        /\ log s1
           = [log_error "Error preparing document for insertion: embedding failed"]).
Proof.
  split.
  - intros s.
    pose (s1 := snd (prepare_all Mem.backend [0; 1; 2]%nat [] s)).
    pose (entries := match fst (prepare_all Mem.backend [0; 1; 2]%nat [] s) with
                     | Ok l => l
                     | Raise _ => []
                     end).
    destruct (insert_isolates_submissions Mem.backend s [0; 1; 2]%nat s)
      as [Hok _]; [discriminate | reflexivity |].
    destruct (Hok entries s1 eq_refl)
      as [s2 [outcomes [Hins [Hsub [_ [_ [Hlog _]]]]]]].
    exists s2, outcomes. split; [exact Hins|].
    assert (Ho : outcomes
                 = fst (submissions Mem.backend "docs" entries Mem.provisioned)).
    { change (eng s) with Mem.provisioned in Hsub.
      change (name (self s)) with "docs" in Hsub. now rewrite Hsub. }
    split.
    + rewrite Ho. reflexivity.
    + exact Hlog.
  - intros s.
    pose (s1 := snd (prepare_all Mem.backend [0; 1; 2]%nat [] s)).
    destruct (insert_isolates_submissions Mem.backend s [0; 1; 2]%nat s)
      as [_ Hfail]; [discriminate | reflexivity |].
    destruct (Hfail (RuntimeError "embedding failed") s1 eq_refl)
      as [Hins [Heng Hlog]].
    exists s1. split; [exact Hins|]. split; [exact Heng | exact Hlog].
Defined.

Lemma insert_writes_embedding_back_witness :
  let s := Mem.start Mem.backend Mem.provisioned
             [Mem.doc "a" "apple" (Plain PNone)] vector in
  exists e,
    get_embedding Mem.backend (PStr "apple") = Ok e
    /\ nth_error (heap (snd (insert Mem.backend [0%nat] s))) 0
       = Some (Mem.doc "a" "apple" e).
Proof.
  intros s.
  apply (insert_writes_embedding_back Mem.backend s [0%nat]
           (snd (insert Mem.backend [0%nat] s)) 0%nat
           (Mem.doc "a" "apple" (Plain PNone))).
  - reflexivity.
  - left. reflexivity.
  - reflexivity.
  - reflexivity.
Defined.

(** C1 as the specification states it fails: the embedder fails on the
    second of three documents; [insert] raises, the log has no record of
    any document and the engine has received none, the first and third
    included. *)
Lemma embedding_failure_aborts_batch :
  let s := Mem.start Mem.backend Mem.provisioned
             [Mem.doc "a" "apple" (Plain PNone);
              Mem.doc "b" "bad" (Plain PNone);
              Mem.doc "c" "cherry" (Plain PNone)] vector in
  exists s',
    insert Mem.backend [0; 1; 2]%nat s = (Raise (RuntimeError "embedding failed"), s')
    /\ eng s' = Mem.provisioned
    /\ log s' = [log_error "Error preparing document for insertion: embedding failed"].
Proof. intros s. eexists. split; [reflexivity|]. split; reflexivity. Qed.

(** C4 at a document without content: the embedder is skipped, but the
    document is not stored with a null embedding; [insert] raises a
    [TypeError] and the engine receives nothing. *)
Theorem empty_content_aborts_insert :
  let s := Mem.start Mem.backend Mem.provisioned
             [Mem.doc "d" "" (Plain PNone)] vector in
  exists s',
    insert Mem.backend [0%nat] s = (Raise (TypeError "object has no len()"), s')
    /\ eng s' = Mem.provisioned
    /\ heap s' = heap s.
Proof. intros s. eexists. split; [reflexivity|]. split; reflexivity. Qed.

End IngestionWitnesses.

(** ** Search facade *)

Section Facade.

Import TypesenseDb.

Variable B : Backend.
Implicit Type s : state B.

Lemma vector_search_never_raises query limit filters s :
  exists documents s', vector_search B query limit filters s = (Ok documents, s').
Proof.
  unfold vector_search, try_exceptM.
  destruct (bindM B (lift B (get_embedding B (PStr query))) _ s) as [[d|e] s1];
    unfold bindM, add_log, ret; simpl; eauto.
Qed.

Lemma keyword_search_never_raises query limit filters s :
  exists documents s', keyword_search B query limit filters s = (Ok documents, s').
Proof.
  unfold keyword_search, try_exceptM.
  destruct (bindM B (search_handler B) _ s) as [[d|e] s1];
    unfold bindM, add_log, ret; simpl; eauto.
Qed.

Lemma hybrid_search_never_raises query limit filters s :
  exists documents s', hybrid_search B query limit filters s = (Ok documents, s').
Proof.
  unfold hybrid_search, try_exceptM.
  destruct (bindM B (lift B (get_embedding B (PStr query))) _ s) as [[d|e] s1];
    unfold bindM, add_log, ret; simpl; eauto.
Qed.

Lemma search_never_raises query limit filters s :
  exists documents s', search B query limit filters s = (Ok documents, s').
Proof.
  unfold search, try_exceptM.
  destruct (search_type (self s)).
  - destruct (vector_search_never_raises query limit filters s) as [d [s' ->]]; eauto.
  - destruct (keyword_search_never_raises query limit filters s) as [d [s' ->]]; eauto.
  - destruct (hybrid_search_never_raises query limit filters s) as [d [s' ->]]; eauto.
Qed.

End Facade.

(** With the engine's search calls out of order, the adapter's keyword
    search answers the empty list and logs the error that came out of the
    executor. *)
Example keyword_search_engine_down :
  exists s',
    TypesenseDb.keyword_search Mem.search_down "banana" 5 None
      (Mem.serving_on Mem.search_down Mem.provisioned) = (Ok [], s')
    /\ TypesenseDb.log s'
       = [TypesenseDb.log_error "Keyword search failed: connection refused"].
Proof. eexists. split; reflexivity. Qed.

(** * Further properties *)

(** ** Schema builder, continued *)

Section SchemaTuning.

Import Index.

(** X1: the schema takes from an HNSW configuration its [m] and its
    [ef_construction] only: two configurations that agree on these give the
    same schema, whatever their [max_elements] and [ef]. *)
Theorem schema_ignores_ef_and_max_elements name D distance (c c' : HNSWConfig) extra :
  m c = m c' ->
  ef_construction c = ef_construction c' ->
  create_schema name D distance (Some c) extra
  = create_schema name D distance (Some c') extra.
Proof.
  intros Hm He. unfold create_schema. now rewrite Hm, He.
Qed.

Lemma schema_ignores_ef_and_max_elements_witness :
  create_schema "docs" 3 COSINE (Some HNSWConfig_default) None
  = create_schema "docs" 3 COSINE
      (Some {| max_elements := 10; m := 16; ef_construction := 100; ef := 1 |}) None.
Proof.
  apply schema_ignores_ef_and_max_elements; reflexivity.
Defined.

End SchemaTuning.

(** ** Filter compiler, continued *)

Section FilterComposition.

Import Search Spec.

Lemma string_app_assoc (a b c : string) : ((a ++ b) ++ c = a ++ (b ++ c))%string.
Proof. induction a as [|ch a IH]; simpl; [reflexivity | now rewrite IH]. Qed.

Lemma concat_app sep (l1 l2 : list string) :
  l1 <> [] -> l2 <> [] ->
  String.concat sep (l1 ++ l2)
  = (String.concat sep l1 ++ sep ++ String.concat sep l2)%string.
Proof.
  intros H1 H2. induction l1 as [|x l1 IH]; [congruence|].
  destruct l1 as [|y l1].
  - simpl. destruct l2; [congruence | reflexivity].
  - change (String.concat sep ((x :: y :: l1) ++ l2))
      with (x ++ sep ++ String.concat sep ((y :: l1) ++ l2))%string.
    rewrite IH by discriminate.
    change (String.concat sep (x :: y :: l1))
      with (x ++ sep ++ String.concat sep (y :: l1))%string.
    now rewrite !string_app_assoc.
Qed.

Lemma build_filter_string_join (f1 f2 : list (string * pyval)) :
  f1 <> [] -> f2 <> [] ->
  build_filter_string (f1 ++ f2)
  = (build_filter_string f1 ++ " && " ++ build_filter_string f2)%string.
Proof.
  intros H1 H2. rewrite !build_filter_string_conjunction. unfold conjunction.
  rewrite map_app. apply concat_app.
  - destruct f1; [congruence | discriminate].
  - destruct f2; [congruence | discriminate].
Qed.

(** X2: compiling the union of two non-empty mappings, one after the other,
    gives the two clauses joined by the conjunction sign; an empty mapping
    on either side adds nothing, and the empty mapping compiles to the
    empty string. *)
Theorem build_filter_string_app (f1 f2 : list (string * pyval)) :
  build_filter_string [] = ""
  /\ build_filter_string (f1 ++ []) = build_filter_string f1
  /\ (f1 <> [] -> f2 <> [] ->
      build_filter_string (f1 ++ f2)
      = (build_filter_string f1 ++ " && " ++ build_filter_string f2)%string).
Proof.
  split; [reflexivity|]. split; [now rewrite app_nil_r|].
  apply build_filter_string_join.
Qed.

Lemma build_filter_string_app_witness :
  build_filter_string ([("a", PInt 1)] ++ [("b", PList [PInt 2; PInt 3])])
  = (build_filter_string [("a", PInt 1)] ++ " && "
     ++ build_filter_string [("b", PList [PInt 2; PInt 3])])%string.
Proof.
  destruct (build_filter_string_app [("a", PInt 1)] [("b", PList [PInt 2; PInt 3])])
    as [_ [_ H]].
  apply H; discriminate.
Defined.

Lemma predicate_scalar field (v : pyval) :
  is_scalar v = true -> predicate (field, v) = equality field v.
Proof. destruct v; try discriminate; reflexivity. Qed.

(** X3: values are written into the clause as they are, without quoting or
    escaping: a text value that spells out a conjunction compiles to the
    very clause of the mapping with the separate keys. *)
Theorem filter_values_not_escaped field (v : pyval) (rest : list (string * pyval)) :
  is_scalar v = true ->
  rest <> [] ->
  build_filter_string
    [(field, PStr (py_str v ++ " && " ++ build_filter_string rest))]
  = build_filter_string ((field, v) :: rest).
Proof.
  intros Hv Hrest.
  change ((field, v) :: rest) with ([(field, v)] ++ rest)%list.
  rewrite build_filter_string_join by (assumption || discriminate).
  rewrite (build_filter_string_conjunction [(field, v)]).
  rewrite (build_filter_string_conjunction [(field, PStr _)]).
  unfold conjunction.
  change (String.concat " && " (map predicate [(field, v)]))
    with (predicate (field, v)).
  rewrite (predicate_scalar _ _ Hv).
  change (String.concat " && " (map predicate [(field, PStr ?s)]))
    with (equality field (PStr s)).
  unfold equality.
  change (py_str (PStr ?s)) with s.
  now rewrite !string_app_assoc.
Qed.

Lemma filter_values_not_escaped_witness :
  build_filter_string [("a", PStr "1 && b:=2")]
  = build_filter_string [("a", PInt 1); ("b", PInt 2)].
Proof.
  apply (filter_values_not_escaped "a" (PInt 1) [("b", PInt 2)]).
  - reflexivity.
  - discriminate.
Defined.

End FilterComposition.

(** ** Result normalizer, continued *)

Section NormalizerBounds.

Import Search Spec.

Lemma process_hits_length hits : forall documents out,
  process_hits hits documents = Ok out ->
  (List.length out <= List.length documents + List.length hits)%nat.
Proof.
  induction hits as [|hit rest IH]; intros documents out; simpl.
  - intros H; inversion H; subst. lia.
  - destruct (py_get hit "document" (PDict [])) as [doc|e]; simpl; [|discriminate].
    destruct (make_document hit doc) as [document|e]; intros H; apply IH in H.
    + rewrite length_app in H. simpl in H. lia.
    + lia.
Qed.

(** X4: the normalizer returns at most one document per hit it was given;
    given a mapping without the key [hits] it returns no document. *)
Theorem normalizer_bounded (results : pyval) :
  (forall documents,
     _process_results results = Ok documents ->
     exists hits items,
       py_get results "hits" (PList []) = Ok hits
       /\ py_iter hits = Ok items
       /\ (List.length documents <= List.length items)%nat)
  /\ (forall d, results = PDict d -> dict_get "hits" d = None ->
        _process_results results = Ok []).
Proof.
  split.
  - intros documents. unfold _process_results.
    destruct (py_get results "hits" (PList [])) as [hits|e]; simpl; [|discriminate].
    destruct (py_iter hits) as [items|e] eqn:Hi; simpl; [|discriminate].
    intros H. exists hits, items. split; [reflexivity|]. split; [exact Hi|].
    apply process_hits_length in H. simpl in H. exact H.
  - intros d -> Hd. unfold _process_results. simpl. now rewrite Hd.
Qed.

Lemma normalizer_bounded_witness :
  _process_results (PDict [("found", PInt 0)]) = Ok []
  /\ exists hits items,
       py_get (PDict [("hits", PList sample_hits)]) "hits" (PList []) = Ok hits
       /\ py_iter hits = Ok items
       /\ (List.length [PStr "a"; PNone] <= List.length items)%nat.
Proof.
  split.
  - destruct (normalizer_bounded (PDict [("found", PInt 0)])) as [_ H].
    apply (H [("found", PInt 0)]); reflexivity.
  - destruct (normalizer_bounded (PDict [("hits", PList sample_hits)])) as [H _].
    destruct (H (match _process_results (PDict [("hits", PList sample_hits)]) with
                 | Ok l => l
                 | Raise _ => []
                 end) eq_refl) as [hits [items [Hg [Hi Hl]]]].
    exists hits, items. split; [exact Hg|]. split; [exact Hi | exact Hl].
Defined.

Lemma process_hits_not_mapping hits : forall documents,
  Exists (fun hit => is_dict hit = false) hits ->
  exists e, process_hits hits documents = Raise e.
Proof.
  induction hits as [|hit rest IH]; intros documents Hex.
  - inversion Hex.
  - simpl. destruct (is_dict hit) eqn:Hd.
    + destruct hit; try discriminate Hd. simpl.
      assert (Hrest : Exists (fun hit => is_dict hit = false) rest).
      { inversion Hex as [? ? H|]; subst; [discriminate H | assumption]. }
      match goal with
      | |- context [make_document ?h ?d] => destruct (make_document h d)
      end; now apply IH.
    + destruct hit; try discriminate Hd; simpl; eexists; reflexivity.
Qed.

(** X5: a hit that is not a mapping is not skipped: it makes the normalizer
    raise, and the documents of the other hits are lost with it. *)
Theorem non_mapping_hit_fails_batch (hits : list pyval) :
  Exists (fun hit => is_dict hit = false) hits ->
  exists e, _process_results (PDict [("hits", PList hits)]) = Raise e.
Proof.
  intros Hex. unfold _process_results. simpl.
  now apply process_hits_not_mapping.
Qed.

Lemma non_mapping_hit_fails_batch_witness :
  exists e,
    _process_results
      (PDict [("hits",
               PList [PDict [("document",
                              PDict [("id", PStr "a"); ("content", PStr "apple")])];
                      PStr "b"])])
    = Raise e.
Proof.
  apply non_mapping_hit_fails_batch.
  apply Exists_cons_tl. apply Exists_cons_hd. reflexivity.
Defined.

(** X6: the test that guards the reading of the hits makes that reading
    safe: where the test answers yes, [results['results'][0]['hits']] is
    there, and is not empty. *)
Theorem guarded_hits_access (results : pyval) :
  has_hits results = Ok true ->
  exists hits, first_hits results = Ok hits /\ py_truthy hits = true.
Proof.
  unfold has_hits, first_hits.
  destruct (py_truthy results); [|discriminate].
  destruct results as [| | | | | | |d]; try discriminate. simpl.
  destruct (dict_get "results" d) as [r|]; simpl; [|discriminate].
  destruct (py_truthy r); [|discriminate].
  destruct (py_index0 r) as [r0|e]; simpl; [|discriminate].
  destruct r0 as [| | | | | | |d0]; try discriminate. simpl.
  destruct (dict_get "hits" d0) as [h|]; simpl; [|discriminate].
  intros H. inversion H as [Ht]. exists h. rewrite Ht. split; reflexivity.
Qed.

Lemma guarded_hits_access_witness :
  exists hits,
    first_hits (PDict [("results", PList [PDict [("hits", PList [PInt 1])]])])
    = Ok hits /\ py_truthy hits = true.
Proof.
  apply guarded_hits_access. reflexivity.
Defined.

End NormalizerBounds.

(** ** Search facade, continued *)

Section FacadeProperties.

Import TypesenseDb.

Variable B : Backend.
Implicit Type s : state B.

Ltac run :=
  unfold logged, bindM, try_exceptM, call, ret, raise, lift, add_log,
    set_search, set_eng; simpl.

(** X7: none of the four search methods of the adapter raises, whatever the
    engine and the embedder do: each returns a list of documents. *)
Theorem facade_never_raises query limit filters s :
  (exists documents s', search B query limit filters s = (Ok documents, s'))
  /\ (exists documents s', vector_search B query limit filters s = (Ok documents, s'))
  /\ (exists documents s', keyword_search B query limit filters s = (Ok documents, s'))
  /\ (exists documents s', hybrid_search B query limit filters s = (Ok documents, s')).
Proof.
  split; [apply search_never_raises|].
  split; [apply vector_search_never_raises|].
  split; [apply keyword_search_never_raises | apply hybrid_search_never_raises].
Qed.

(** X8: when the embedder fails on the query, the vector and the hybrid
    search answer the empty list and log the failure without a call to the
    engine: the engine and the adapter, its search handler included, are as
    before. *)
Theorem embedder_failure_skips_engine query limit filters s e :
  get_embedding B (PStr query) = Raise e ->
  (exists s', vector_search B query limit filters s = (Ok [], s')
              /\ eng s' = eng s /\ self s' = self s
              /\ log s' = (log s ++ [log_error ("Vector search failed: "
                                                 ++ exn_str e)])%list)
  /\ (exists s', hybrid_search B query limit filters s = (Ok [], s')
                 /\ eng s' = eng s /\ self s' = self s
                 /\ log s' = (log s ++ [log_error ("Hybrid search failed: "
                                                    ++ exn_str e)])%list).
Proof.
  intros He. split.
  - unfold vector_search. run. rewrite He. eexists. repeat split.
  - unfold hybrid_search. run. rewrite He. eexists. repeat split.
Qed.

(** X9: once the search handler is cached, a search writes nothing but log
    lines: the engine, the adapter, the caller's documents and the uuid
    counter are as before. *)
Theorem search_read_only query limit filters s h :
  _search (self s) = Some h ->
  exists documents s',
    search B query limit filters s = (Ok documents, s')
    /\ eng s' = eng s /\ self s' = self s /\ heap s' = heap s
    /\ uuids s' = uuids s.
Proof.
  intros Hh. unfold search, try_exceptM.
  destruct (search_type (self s)).
  - unfold vector_search, search_handler. run. rewrite Hh.
    destruct (get_embedding B (PStr query)) as [qv|e]; simpl.
    + destruct (Search.vector_search _ _ _ _ _) as [d|e]; simpl;
        do 2 eexists; repeat split.
    + do 2 eexists; repeat split.
  - unfold keyword_search, search_handler. run. rewrite Hh.
    destruct (Search.keyword_search _ _ _ _) as [d|e]; simpl;
      do 2 eexists; repeat split.
  - unfold hybrid_search, search_handler. run. rewrite Hh.
    destruct (get_embedding B (PStr query)) as [qv|e]; simpl.
    + destruct (Search.hybrid_search _ _ _ _ _ _) as [d|e]; simpl;
        do 2 eexists; repeat split.
    + do 2 eexists; repeat split.
Qed.

(** X10: the search handler is built once: after a use that succeeded, the
    next use returns the same handler and changes nothing, the engine is
    not asked again. *)
Theorem search_handler_cached s h s' :
  search_handler B s = (Ok h, s') ->
  search_handler B s' = (Ok h, s').
Proof.
  intros H. destruct (_search (self s)) as [h0|] eqn:Hc.
  - unfold search_handler in H. rewrite Hc in H. inversion H; subst.
    unfold search_handler. now rewrite Hc.
  - destruct (search_handler_rebuilds B s h s' Hc H) as [_ Hs].
    unfold search_handler. now rewrite Hs.
Qed.

Lemma exists_depends_on_engine s s1 :
  eng s1 = eng s -> self s1 = self s ->
  fst (exists_ B s1) = fst (exists_ B s).
Proof.
  intros He Hs. unfold exists_. rewrite He, Hs.
  destruct (collection_retrieve B (eng s) (name (self s))) as [v|e]; [reflexivity|].
  destruct (is_ObjectNotFound e); [reflexivity|].
  destruct (is_TypesenseClientError e); reflexivity.
Qed.

(** X11: the first use of the search handler provisions the collection:
    when no handler is cached, the probe finds no collection and the
    creation succeeds, the handler is built for the adapter's collection
    and the engine is as the creation of the adapter's schema left it. *)
Theorem first_search_provisions s v e' :
  _search (self s) = None ->
  fst (exists_ B s) = Ok false ->
  collections_create B (eng s) (schema (self s)) = (Ok v, e') ->
  exists s',
    search_handler B s = (Ok {| collection := name (self s) |}, s')
    /\ eng s' = e'
    /\ _search (self s') = Some {| collection := name (self s) |}.
Proof.
  intros Hnone Hprobe Hcreate. unfold search_handler. rewrite Hnone.
  unfold logged, try_exceptM, bindM.
  destruct (exists_ B s) as [[b|x] s1] eqn:He; simpl in Hprobe; [|discriminate].
  inversion Hprobe; subst b. cbn [negb]. cbv beta iota.
  destruct (exists_frame _ _ _ _ He) as [_ [Heng Hself]].
  assert (Hp1 : fst (exists_ B s1) = Ok false).
  { rewrite (exists_depends_on_engine s s1 Heng Hself), He. reflexivity. }
  rewrite <- Heng, <- Hself in Hcreate.
  destruct (create_absent B s1 _ _ Hp1 Hcreate) as [Hr He'].
  destruct (create B s1) as [[[]|x] s2] eqn:Hc; simpl in Hr, He'; [|discriminate].
  destruct (create_frame _ _ _ _ Hc) as [_ Hself2].
  unfold set_search, ret. simpl. rewrite Hself2, Hself.
  eexists. split; [reflexivity|]. split; [exact He' | reflexivity].
Qed.

End FacadeProperties.

Section FacadeWitnesses.

Import TypesenseDb.

Lemma embedder_failure_skips_engine_witness :
  exists s',
    vector_search Mem.backend "bad" 5 None (Mem.start Mem.backend [] [] vector)
    = (Ok [], s')
    /\ eng s' = []
    /\ log s' = [log_error "Vector search failed: embedding failed"].
Proof.
  destruct (embedder_failure_skips_engine Mem.backend "bad" 5 None
              (Mem.start Mem.backend [] [] vector)
              (RuntimeError "embedding failed") eq_refl)
    as [[s' [Hv [He [_ Hl]]]] _].
  exists s'. split; [exact Hv|]. split; [exact He | exact Hl].
Defined.

Lemma search_read_only_witness :
  exists documents s',
    search Mem.backend "apple" 5 None Mem.serving = (Ok documents, s')
    /\ eng s' = Mem.provisioned.
Proof.
  destruct (search_read_only Mem.backend "apple" 5 None Mem.serving
              {| collection := "docs" |} eq_refl)
    as [documents [s' [Hs [He _]]]].
  exists documents, s'. split; [exact Hs | exact He].
Defined.

Lemma search_handler_cached_witness :
  let s' := snd (search_handler Mem.backend (Mem.start Mem.backend [] [] vector)) in
  search_handler Mem.backend s' = (Ok {| collection := "docs" |}, s').
Proof.
  intros s'.
  apply (search_handler_cached Mem.backend (Mem.start Mem.backend [] [] vector)).
  reflexivity.
Defined.

Lemma first_search_provisions_witness :
  exists s',
    search_handler Mem.backend (Mem.start Mem.backend [] [] vector)
    = (Ok {| collection := "docs" |}, s')
    /\ eng s' = Mem.provisioned
    /\ _search (self s') = Some {| collection := "docs" |}.
Proof.
  eapply (first_search_provisions Mem.backend (Mem.start Mem.backend [] [] vector));
    reflexivity.
Defined.

End FacadeWitnesses.

(** ** Collection lifecycle, continued *)

Section LifecycleProperties.

Import TypesenseDb.

Variable B : Backend.
Implicit Type s : state B.

Ltac run :=
  unfold drop, delete, logged, exists_, bindM, try_exceptM, call, ret, raise,
    add_log, set_search, set_eng; simpl.

(** X12: the probe [exists] never raises a client error and never writes:
    it answers yes exactly when the engine returned the collection, no on
    every client error, and leaves the engine, the adapter and the caller's
    documents as they were. *)
Theorem exists_probe_safe s r s' :
  exists_ B s = (r, s') ->
  eng s' = eng s /\ self s' = self s /\ heap s' = heap s
  /\ match r with
     | Ok true => exists v, collection_retrieve B (eng s) (name (self s)) = Ok v
     | Ok false =>
         exists e, collection_retrieve B (eng s) (name (self s)) = Raise e
                   /\ is_TypesenseClientError e = true
     | Raise e =>
         collection_retrieve B (eng s) (name (self s)) = Raise e
         /\ is_TypesenseClientError e = false
     end.
Proof.
  unfold exists_.
  destruct (collection_retrieve B (eng s) (name (self s))) as [v|e] eqn:Hr.
  - intros H; inversion H; subst. repeat split. now exists v.
  - destruct (is_ObjectNotFound e) eqn:Hn.
    + intros H; inversion H; subst. repeat split. exists e. split; [reflexivity|].
      destruct e; try discriminate Hn; reflexivity.
    + destruct (is_TypesenseClientError e) eqn:Ht.
      * unfold bindM, add_log, ret. simpl. intros H; inversion H; subst.
        repeat split. now exists e.
      * intros H; inversion H; subst. repeat split. exact Ht.
Qed.

(** X13: on an engine where a collection that was deleted is no longer
    found, [exists] answers no after every [drop] that returned. *)
Theorem drop_then_exists s s' :
  (forall w e', collection_delete B (eng s) (name (self s)) = (Ok w, e') ->
                exists m, collection_retrieve B e' (name (self s))
                          = Raise (ObjectNotFound m)) ->
  drop B s = (Ok tt, s') ->
  fst (exists_ B s') = Ok false.
Proof.
  intros Hlaw. run.
  destruct (collection_retrieve B (eng s) (name (self s))) as [v|e] eqn:Hr; simpl.
  - destruct (collection_delete B (eng s) (name (self s))) as [[w|x] e'] eqn:Hd; simpl.
    + intros H; inversion H; subst. simpl.
      destruct (Hlaw w e' eq_refl) as [m Hm]. now rewrite Hm.
    + destruct (is_TypesenseClientError x); discriminate.
  - destruct (is_ObjectNotFound e) eqn:Hn; simpl.
    + intros H; inversion H; subst. simpl. rewrite Hr, Hn. reflexivity.
    + destruct (is_TypesenseClientError e) eqn:Ht; simpl.
      * intros H; inversion H; subst. simpl. rewrite Hr, Hn, Ht. reflexivity.
      * rewrite Ht. discriminate.
Qed.

(** X14: [delete] never raises a client error; and when the probe itself
    fails with one, be it that the collection is not found or that the
    engine cannot be reached, [delete] answers [True] without a deletion:
    the engine and the adapter are as before. *)
Theorem delete_reports s :
  match fst (delete B s) with
  | Ok _ => True
  | Raise e => is_TypesenseClientError e = false
  end
  /\ (forall e,
        collection_retrieve B (eng s) (name (self s)) = Raise e ->
        is_TypesenseClientError e = true ->
        exists s', delete B s = (Ok true, s')
                   /\ eng s' = eng s /\ self s' = self s).
Proof.
  split.
  - unfold delete, try_exceptM, bindM.
    destruct (drop B s) as [[[]|x] s1]; [exact I|].
    destruct (is_TypesenseClientError x) eqn:Hx; [exact I | exact Hx].
  - intros e Hr Ht. unfold delete. run. rewrite Hr.
    destruct (is_ObjectNotFound e); simpl.
    + eexists. repeat split.
    + rewrite Ht. simpl. eexists. repeat split.
Qed.

End LifecycleProperties.

Section LifecyclePropertiesWitnesses.

Import TypesenseDb.

Lemma exists_probe_safe_witness :
  exists e,
    collection_retrieve Mem.down tt "docs" = Raise e
    /\ is_TypesenseClientError e = true.
Proof.
  pose (s := Mem.start Mem.down tt [] vector).
  destruct (exists_probe_safe Mem.down s (fst (exists_ Mem.down s)) (snd (exists_ Mem.down s))
              eq_refl) as [_ [_ [_ H]]].
  exact H.
Defined.

Lemma drop_then_exists_witness :
  fst (exists_ Mem.backend (snd (drop Mem.backend Mem.serving))) = Ok false.
Proof.
  apply (drop_then_exists Mem.backend Mem.serving).
  - intros w e' H. inversion H; subst. eexists. reflexivity.
  - reflexivity.
Defined.

Lemma delete_reports_witness :
  exists s',
    delete Mem.down (Mem.serving_on Mem.down tt) = (Ok true, s')
    /\ self s' = self (Mem.serving_on Mem.down tt).
Proof.
  destruct (delete_reports Mem.down (Mem.serving_on Mem.down tt)) as [_ H].
  destruct (H (TypesenseClientError "connection refused") eq_refl eq_refl)
    as [s' [Hd [_ Hs]]].
  exists s'. split; [exact Hd | exact Hs].
Defined.

End LifecyclePropertiesWitnesses.

(** ** Ingestion, continued *)

Section IngestionProperties.

Import TypesenseDb Spec.

Variable B : Backend.
Implicit Type s : state B.

Ltac run :=
  unfold logged, exists_, bindM, try_exceptM, call, ret, raise, lift,
    add_log, set_search, set_eng, set_heap, fresh_uuid; simpl.

Lemma metadata_is_mapping (m : pyval) :
  exists d, (if is_dict m then m else PDict [("value", PStr (py_str m))]) = PDict d.
Proof. destruct m; simpl; eexists; reflexivity. Qed.

Ltac leaf :=
  let H := fresh in
  intros H; inversion H; subst; simpl;
  repeat split; auto; intros; try discriminate.

(** One preparation, seen from the store and the uuid counter: the store is
    as before or has the embedding of the object written; an entry that
    comes out is fit for submission and has cost one uuid when the object
    had no id; a failure costs none. *)
Lemma prepare_shape r s res s' :
  prepare B r s = (res, s') ->
  (heap s' = heap s
   \/ exists doc e, nth_error (heap s) r = Some doc
                    /\ lacks_embedding doc = true
                    /\ heap s' = list_update (heap s) r (with_embedding doc e))
  /\ (forall entry, res = Ok entry ->
        sized_entry entry
        /\ exists doc, nth_error (heap s) r = Some doc
                       /\ uuids s' = (uuids s + if py_truthy (Document.id doc)
                                                then 0 else 1)%nat)
  /\ (forall x, res = Raise x -> uuids s' = uuids s).
Proof.
  unfold prepare, bindM, deref, lift, assign_embedding.
  destruct (nth_error (heap s) r) as [doc|] eqn:Hn; [|leaf].
  destruct (py_sliceable (Document.content doc)); [|leaf].
  destruct (is_plain_None (Document.embedding doc)
            && py_truthy (Document.content doc)) eqn:Hc.
  - destruct (get_embedding B (Document.content doc)) as [e|x] eqn:Hg; [|leaf].
    rewrite Hn. simpl.
    destruct (embedding_len e) as [n|x] eqn:Hl; simpl.
    + rewrite (nth_error_update_same _ _ _ _ Hn). simpl.
      destruct (py_len (tolist_if_ndarray e)) as [k|x] eqn:Hk; simpl.
      * destruct (metadata_is_mapping
                    (if py_truthy (Document.meta_data doc)
                     then Document.meta_data doc else PDict [])) as [d Hd].
        rewrite Hd.
        destruct (py_truthy (Document.id doc)) eqn:Hi; run;
          intros H; inversion H; subst; simpl;
          (split; [right; exists doc, e; auto|]);
          (split; [|intros; discriminate]);
          intros entry He; inversion He; subst;
          (split; [do 5 eexists; split; [reflexivity | exact Hk]|]);
          exists doc; rewrite Hi; split; auto; lia.
      * intros H; inversion H; subst; simpl.
        split; [right; exists doc, e; auto|].
        split; [intros; discriminate | reflexivity].
    + intros H; inversion H; subst; simpl.
      split; [right; exists doc, e; auto|].
      split; [intros; discriminate | reflexivity].
  - unfold ret. rewrite Hn.
    destruct (py_len (tolist_if_ndarray (Document.embedding doc))) as [k|x] eqn:Hk;
      simpl; [|leaf].
    destruct (metadata_is_mapping
                (if py_truthy (Document.meta_data doc)
                 then Document.meta_data doc else PDict [])) as [d Hd].
    rewrite Hd.
    destruct (py_truthy (Document.id doc)) eqn:Hi; run;
      intros H; inversion H; subst; simpl;
      (split; [left; reflexivity|]);
      (split; [|intros; discriminate]);
      intros entry He; inversion He; subst;
      (split; [do 5 eexists; split; [reflexivity | exact Hk]|]);
      exists doc; rewrite Hi; split; auto; lia.
Qed.

Lemma store_preserved_refl h : store_preserved h h.
Proof.
  split; [reflexivity|]. intros r doc Hn. exists doc. split; [exact Hn|].
  split; [repeat split | reflexivity].
Qed.

Lemma store_preserved_trans h1 h2 h3 :
  store_preserved h1 h2 -> store_preserved h2 h3 -> store_preserved h1 h3.
Proof.
  intros [Hl1 H1] [Hl2 H2]. split; [congruence|].
  intros r doc Hn. destruct (H1 r doc Hn) as [doc1 [Hn1 [[Hi [Hc Hm]] Hk]]].
  destruct (H2 r doc1 Hn1) as [doc2 [Hn2 [[Hi2 [Hc2 Hm2]] Hk2]]].
  exists doc2. split; [exact Hn2|]. split.
  - repeat split; congruence.
  - intros Hne. rewrite <- (Hk Hne). apply Hk2. now rewrite (Hk Hne).
Qed.

Lemma length_list_update {A} (l : list A) i x :
  List.length (list_update l i x) = List.length l.
Proof.
  revert i. induction l as [|a l IH]; intros [|i]; simpl; auto.
Qed.

Lemma store_preserved_update h r doc e :
  nth_error h r = Some doc ->
  lacks_embedding doc = true ->
  store_preserved h (list_update h r (with_embedding doc e)).
Proof.
  intros Hn Hl. split; [apply length_list_update|].
  intros r' doc' Hn'. destruct (Nat.eq_dec r r') as [<-|Hne].
  - rewrite Hn in Hn'. inversion Hn'; subst doc'.
    exists (with_embedding doc e). split; [now apply (nth_error_update_same _ _ _ doc)|].
    split; [repeat split|].
    unfold lacks_embedding in Hl. apply andb_true_iff in Hl. destruct Hl as [Hl _].
    rewrite Hl. discriminate.
  - exists doc'. rewrite (nth_error_update_other _ _ _ _ Hne).
    split; [exact Hn'|]. split; [repeat split | reflexivity].
Qed.

Lemma prepare_preserves r s res s' :
  prepare B r s = (res, s') -> store_preserved (heap s) (heap s').
Proof.
  intros H. destruct (prepare_shape _ _ _ _ H) as [[Hh | [doc [e [Hn [Hl Hh]]]]] _];
    rewrite Hh; [apply store_preserved_refl | now apply store_preserved_update].
Qed.

Lemma prepare_all_preserves documents : forall acc s res s',
  prepare_all B documents acc s = (res, s') ->
  store_preserved (heap s) (heap s').
Proof.
  induction documents as [|r rest IH]; intros acc s res s'; simpl.
  - unfold ret. intros H; inversion H; subst. apply store_preserved_refl.
  - unfold bindM at 1. unfold try_exceptM.
    destruct (prepare B r s) as [[entry|x] s1] eqn:Hp;
      pose proof (prepare_preserves _ _ _ _ Hp) as H1.
    + intros H. exact (store_preserved_trans _ _ _ H1 (IH _ _ _ _ H)).
    + run. intros H; inversion H; subst. exact H1.
Qed.

Lemma insert_heap documents s :
  documents <> [] ->
  match ensure_collection B s with
  | (Ok _, s0) =>
      heap s0 = heap s
      /\ heap (snd (insert B documents s))
         = heap (snd (prepare_all B documents [] s0))
      /\ uuids (snd (insert B documents s))
         = uuids (snd (prepare_all B documents [] s0))
  | (Raise _, s0) => insert B documents s = (ensure_collection B s)
                     /\ heap s0 = heap s
  end.
Proof.
  intros Hne. rewrite (insert_unfold _ _ _ Hne).
  destruct (ensure_collection B s) as [[[]|x] s0] eqn:He;
    destruct (ensure_frame _ _ _ _ He) as [Hh _]; [|split; [reflexivity | exact Hh]].
  split; [exact Hh|].
  destruct (prepare_all B documents [] s0) as [[[|entry entries]|x] s1];
    [split; reflexivity | | split; reflexivity].
  match goal with
  | |- context [snd ?X] => remember X as out eqn:Hout
  end.
  unfold try_exceptM in Hout. unfold bindM at 1 in Hout.
  rewrite store_all_spec in Hout. subst out. run. split; reflexivity.
Qed.

(** X15: whatever its outcome, [insert] does to the caller's documents
    nothing but fill in missing embeddings: no object appears or
    disappears, the id, the content and the metadata of each are as before,
    and an embedding that was there is never replaced. *)
Theorem insert_only_fills_embeddings documents s :
  store_preserved (heap s) (heap (snd (insert B documents s))).
Proof.
  destruct documents as [|r rest]; [apply store_preserved_refl|].
  assert (Hne : r :: rest <> []) by discriminate.
  pose proof (insert_heap (r :: rest) s Hne) as H.
  destruct (ensure_collection B s) as [[[]|x] s0] eqn:He.
  - destruct H as [Hh [Hi _]]. rewrite Hi, <- Hh.
    destruct (prepare_all B (r :: rest) [] s0) as [res s1] eqn:Hp.
    exact (prepare_all_preserves _ _ _ _ _ Hp).
  - destruct H as [Hi Hh]. rewrite Hi. simpl. rewrite Hh.
    apply store_preserved_refl.
Qed.

Lemma prepare_all_sized documents : forall acc s entries s',
  prepare_all B documents acc s = (Ok entries, s') ->
  Forall sized_entry acc -> Forall sized_entry entries.
Proof.
  induction documents as [|r rest IH]; intros acc s entries s'; simpl.
  - unfold ret. intros H; inversion H; subst. auto.
  - unfold bindM at 1. unfold try_exceptM.
    destruct (prepare B r s) as [[entry|x] s1] eqn:Hp; [|run; discriminate].
    destruct (prepare_shape _ _ _ _ Hp) as [_ [Hok _]].
    destruct (Hok entry eq_refl) as [Hsized _].
    intros H Hacc. apply (IH _ _ _ _ H).
    apply Forall_app. split; [exact Hacc | now constructor].
Qed.

(** X16: when the first loop of [insert] completes, every entry it has
    prepared has the four keys [id], [content], [embedding], [meta_data],
    a mapping as metadata and an embedding that has a length: no entry with
    a null embedding is ever handed to the engine. *)
Theorem prepared_entries_sized documents s entries s' :
  prepare_all B documents [] s = (Ok entries, s') ->
  Forall sized_entry entries.
Proof.
  intros H. apply (prepare_all_sized _ _ _ _ _ H). constructor.
Qed.

(** X17: when the collection is not there and cannot be created, [insert]
    of a non-empty batch raises the error of the creation and has touched
    none of the caller's documents. *)
Theorem insert_provisioning_failure documents s x e' :
  documents <> [] ->
  fst (exists_ B s) = Ok false ->
  collections_create B (eng s) (schema (self s)) = (Raise x, e') ->
  fst (insert B documents s) = Raise x
  /\ heap (snd (insert B documents s)) = heap s.
Proof.
  intros Hne Hprobe Hcreate.
  pose proof (insert_heap documents s Hne) as H.
  assert (He : fst (ensure_collection B s) = Raise x).
  { unfold ensure_collection, bindM.
    destruct (exists_ B s) as [[b|y] s1] eqn:Hx; simpl in Hprobe; [|discriminate].
    inversion Hprobe; subst b. cbn [negb]. cbv beta iota.
    destruct (exists_frame _ _ _ _ Hx) as [_ [Heng Hself]].
    assert (Hp1 : fst (exists_ B s1) = Ok false).
    { rewrite (exists_depends_on_engine B s s1 Heng Hself), Hx. reflexivity. }
    rewrite <- Heng, <- Hself in Hcreate.
    exact (proj1 (create_absent B s1 _ _ Hp1 Hcreate)). }
  destruct (ensure_collection B s) as [[[]|y] s0]; simpl in He; [discriminate|].
  inversion He; subst y. destruct H as [Hi Hh]. rewrite Hi. split; [reflexivity|exact Hh].
Qed.

Lemma exists_uuids s r s' :
  exists_ B s = (r, s') -> uuids s' = uuids s.
Proof.
  unfold exists_.
  destruct (collection_retrieve B (eng s) (name (self s))) as [v|e].
  - intros H; inversion H; subst; auto.
  - destruct (is_ObjectNotFound e); [intros H; inversion H; subst; auto|].
    destruct (is_TypesenseClientError e); unfold bindM, add_log, ret; simpl;
      intros H; inversion H; subst; auto.
Qed.

Lemma create_uuids s r s' :
  create B s = (r, s') -> uuids s' = uuids s.
Proof.
  unfold create, logged, try_exceptM, bindM at 1.
  destruct (exists_ B s) as [[b|e] s1] eqn:He;
    pose proof (exists_uuids _ _ _ He) as Hu.
  - destruct b; simpl negb; cbv iota.
    + run. intros H; inversion H; subst; auto.
    + run. destruct (collections_create B (eng s1) (schema (self s1))) as [[v|x] e'];
        simpl; [intros H; inversion H; subst; auto|].
      destruct (is_TypesenseClientError x); simpl; intros H; inversion H; subst; auto.
  - destruct (is_TypesenseClientError e); run; intros H; inversion H; subst; auto.
Qed.

Lemma ensure_uuids s r s0 :
  ensure_collection B s = (r, s0) -> uuids s0 = uuids s.
Proof.
  unfold ensure_collection, bindM.
  destruct (exists_ B s) as [[b|e] s1] eqn:He;
    pose proof (exists_uuids _ _ _ He) as Hu.
  - destruct b; simpl negb; cbv iota.
    + unfold ret. intros H; inversion H; subst; auto.
    + intros H. rewrite (create_uuids _ _ _ H). exact Hu.
  - intros H; inversion H; subst; auto.
Qed.

Lemma id_less_preserved h h' documents :
  store_preserved h h' -> id_less h' documents = id_less h documents.
Proof.
  intros [Hlen Hp]. unfold id_less. f_equal. apply filter_ext. intros r.
  destruct (nth_error h r) as [doc|] eqn:Hn.
  - destruct (Hp r doc Hn) as [doc' [Hn' [[Hi _] _]]]. now rewrite Hn', Hi.
  - apply nth_error_None in Hn. rewrite <- Hlen in Hn.
    apply nth_error_None in Hn. now rewrite Hn.
Qed.

Lemma prepare_all_uuids documents : forall acc s entries s',
  prepare_all B documents acc s = (Ok entries, s') ->
  uuids s' = (uuids s + id_less (heap s) documents)%nat.
Proof.
  induction documents as [|r rest IH]; intros acc s entries s'; simpl.
  - unfold ret. intros H; inversion H; subst. unfold id_less. simpl. lia.
  - unfold bindM at 1. unfold try_exceptM.
    destruct (prepare B r s) as [[entry|x] s1] eqn:Hp; [|run; discriminate].
    destruct (prepare_shape _ _ _ _ Hp) as [_ [Hok _]].
    destruct (Hok entry eq_refl) as [_ [doc [Hn Hu]]].
    intros H. rewrite (IH _ _ _ _ H), Hu.
    rewrite (id_less_preserved _ _ rest (prepare_preserves _ _ _ _ Hp)).
    unfold id_less. simpl. rewrite Hn.
    destruct (py_truthy (Document.id doc)); simpl; lia.
Qed.

(** X18: an [insert] that returns has drawn one uuid for each document of
    the batch that brought no id, repetitions counted, and none for the
    others. *)
Theorem insert_draws_uuids documents s s' :
  insert B documents s = (Ok tt, s') ->
  uuids s' = (uuids s + id_less (heap s) documents)%nat.
Proof.
  destruct documents as [|r rest].
  - unfold insert, ret. intros H; inversion H; subst. unfold id_less. simpl. lia.
  - intros H. assert (Hne : r :: rest <> []) by discriminate.
    pose proof (insert_heap (r :: rest) s Hne) as Hi.
    rewrite (insert_unfold _ _ _ Hne) in H.
    destruct (ensure_collection B s) as [[[]|x] s0] eqn:He; [|discriminate].
    destruct Hi as [Hh [_ Hu]].
    destruct (prepare_all B (r :: rest) [] s0) as [[entries|x] s1] eqn:Hp;
      [|discriminate].
    assert (Hs' : uuids s' = uuids s1).
    { destruct (insert B (r :: rest) s) as [res sf] eqn:Hins.
      rewrite (insert_unfold _ _ _ Hne), He, Hp in Hins.
      rewrite H in Hins. inversion Hins; subst. exact Hu. }
    rewrite Hs', (prepare_all_uuids _ _ _ _ _ Hp), (ensure_uuids _ _ _ He), Hh.
    reflexivity.
Qed.

End IngestionProperties.

Section IngestionPropertiesWitnesses.

Import TypesenseDb Spec.

Lemma prepared_entries_sized_witness :
  Forall sized_entry
    [PDict [("id", PStr "a"); ("content", PStr "apple");
            ("embedding", PList [PFloat "1.0"; PFloat "0.0"; PFloat "0.0"]);
            ("meta_data", PDict [])]].
Proof.
  apply (prepared_entries_sized Mem.backend [0%nat]
           (Mem.start Mem.backend Mem.provisioned
              [Mem.doc "a" "apple" (Plain PNone)] vector)
           _ (snd (prepare_all Mem.backend [0%nat] []
                     (Mem.start Mem.backend Mem.provisioned
                        [Mem.doc "a" "apple" (Plain PNone)] vector)))).
  reflexivity.
Defined.

Lemma insert_provisioning_failure_witness :
  let s := Mem.start Mem.down tt [Mem.doc "a" "apple" (Plain PNone)] vector in
  fst (insert Mem.down [0%nat] s) = Raise (TypesenseClientError "connection refused")
  /\ heap (snd (insert Mem.down [0%nat] s)) = heap s.
Proof.
  intros s.
  apply (insert_provisioning_failure Mem.down [0%nat] s
           (TypesenseClientError "connection refused") tt).
  - discriminate.
  - reflexivity.
  - reflexivity.
Defined.

Lemma insert_draws_uuids_witness :
  let s := Mem.start Mem.backend Mem.provisioned
             [Document.mk PNone (PStr "apple") (PDict []) (Plain PNone);
              Mem.doc "b" "banana" (Plain PNone)] vector in
  uuids (snd (insert Mem.backend [0; 1; 0]%nat s)) = 2%nat.
Proof.
  intros s.
  apply (insert_draws_uuids Mem.backend [0; 1; 0]%nat s).
  reflexivity.
Defined.

End IngestionPropertiesWitnesses.

(** ** Search executor, continued *)

Section ExecutorEdges.

Variable collection_name : string.
Variable multi_search_perform : pyval -> pyval -> result pyval.

(** X19: a query vector that cannot be measured or walked through, such as
    [None], gives the empty list from the vector and the hybrid search
    whatever the engine would answer: the request is never built. *)
Theorem unusable_query_vector query_vector query limit filters e :
  py_iter query_vector = Raise e ->
  Search.vector_search collection_name multi_search_perform query_vector limit
    filters = Ok []
  /\ Search.hybrid_search collection_name multi_search_perform query query_vector
       limit filters = Ok [].
Proof.
  intros Hi. unfold Search.vector_search, Search.hybrid_search. rewrite Hi.
  split; [|reflexivity].
  destruct (py_len query_vector); reflexivity.
Qed.

End ExecutorEdges.

Lemma unusable_query_vector_witness :
  Search.vector_search "docs" (Mem.multi_search_perform Mem.provisioned) PNone 5 None
  = Ok []
  /\ Search.hybrid_search "docs" (Mem.multi_search_perform Mem.provisioned) "apple"
       PNone 5 None = Ok [].
Proof.
  apply (unusable_query_vector "docs" (Mem.multi_search_perform Mem.provisioned)
           PNone "apple" 5 None (TypeError "object is not iterable")).
  reflexivity.
Defined.
